(** * Provider bootstrap of the OpenNebula Terraform provider

    A shallow embedding of [opennebula/framework/provider.go]: the
    [Configure] method of [OpenNebulaProvider], together with the parts of
    the Go standard library ([os.Getenv], [strconv.ParseBool]) and of the
    Terraform plugin framework ([diag.Diagnostics], [types.String],
    [types.Bool], [types.Set]) whose behaviour [Configure] depends on.

    The Go function mutates [resp] and leaves through early [return]s.
    Here the accumulated [resp.Diagnostics] is threaded explicitly, each
    block of the function is a definition of its own, named after what the
    block does, and [validate] (up to the last check before the network
    is used), [connect] (the rest) and [Configure] compose them in source
    order. *)

From Stdlib Require Import String Ascii.
From stdpp Require Import base decidable option list strings gmap fin_maps.

Local Open Scope string_scope.
Local Open Scope list_scope.

(** Go's [error] values are observed only through [err.Error()]. *)
Definition error := string.

(** A Go result pair [(v, err)]: [Ok v] when [err == nil]. *)
Inductive result (A : Type) : Type :=
| Ok (v : A)
| Err (e : error).
Arguments Ok {A} v.
Arguments Err {A} e.

(** ** Package [path] and package [diag] of the plugin framework *)

Module path.

Inductive PathStep : Type :=
| PathStepAttributeName (name : string)
| PathStepElementKeyInt (i : Z)
| PathStepElementKeyString (k : string).

#[global] Instance PathStep_eq_dec : EqDecision PathStep.
Proof. solve_decision. Defined.

Definition Path := list PathStep.

(** [path.Root(name)] *)
Definition Root (name : string) : Path := [PathStepAttributeName name].

End path.

Module diag.

Inductive Severity : Type :=
| SeverityError
| SeverityWarning.

#[global] Instance Severity_eq_dec : EqDecision Severity.
Proof. solve_decision. Defined.

(** A diagnostic; [Path] is [None] for the diagnostics made by
    [NewErrorDiagnostic], which concern no attribute. *)
Record Diagnostic : Type := mkDiagnostic {
  Severity_of : Severity;
  Path_of : option path.Path;
  Summary : string;
  Detail : string
}.

#[global] Instance Diagnostic_eq_dec : EqDecision Diagnostic.
Proof. solve_decision. Defined.

Definition Diagnostics := list Diagnostic.

Definition NewErrorDiagnostic (summary detail : string) : Diagnostic :=
  mkDiagnostic SeverityError None summary detail.

Definition NewAttributeErrorDiagnostic
    (p : path.Path) (summary detail : string) : Diagnostic :=
  mkDiagnostic SeverityError (Some p) summary detail.

Definition is_error (d : Diagnostic) : bool :=
  bool_decide (Severity_of d = SeverityError).

(** [Diagnostics.HasError] *)
Definition HasError (diags : Diagnostics) : bool := existsb is_error diags.

(** [Diagnostics.Contains] *)
Definition Contains (diags : Diagnostics) (d : Diagnostic) : bool :=
  bool_decide (d ∈ diags).

(** [Diagnostics.Append]: adds the diagnostics of [new] that are not
    already in the collection, one after the other. *)
Definition Append (diags new : Diagnostics) : Diagnostics :=
  foldl (fun acc d => if Contains acc d then acc else acc ++ [d]) diags new.

(** [Diagnostics.AddError] *)
Definition AddError (diags : Diagnostics) (summary detail : string)
  : Diagnostics :=
  Append diags [NewErrorDiagnostic summary detail].

(** [Diagnostics.AddAttributeError] *)
Definition AddAttributeError
    (diags : Diagnostics) (p : path.Path) (summary detail : string)
  : Diagnostics :=
  Append diags [NewAttributeErrorDiagnostic p summary detail].

(** The error diagnostics of a collection, in order. *)
Definition errors (diags : Diagnostics) : Diagnostics :=
  List.filter is_error diags.

End diag.

(** ** Package [types] of the plugin framework: three-valued attributes *)

Module types.

Inductive String : Type :=
| StringNull
| StringUnknown
| StringValue (v : string).

Inductive Bool : Type :=
| BoolNull
| BoolUnknown
| BoolValue (v : bool).

(** A set attribute over elements of type [E]. *)
Inductive Set_ (E : Type) : Type :=
| SetNull
| SetUnknown
| SetValue (elems : list E).
Arguments SetNull {E}.
Arguments SetUnknown {E}.
Arguments SetValue {E} elems.

Definition String_IsNull (s : String) : bool :=
  match s with StringNull => true | _ => false end.

Definition String_IsUnknown (s : String) : bool :=
  match s with StringUnknown => true | _ => false end.

(** [ValueString] is the empty string for a null or unknown value. *)
Definition ValueString (s : String) : string :=
  match s with StringValue v => v | _ => EmptyString end.

Definition Bool_IsNull (b : Bool) : bool :=
  match b with BoolNull => true | _ => false end.

Definition Bool_IsUnknown (b : Bool) : bool :=
  match b with BoolUnknown => true | _ => false end.

(** [ValueBool] is [false] for a null or unknown value. *)
Definition ValueBool (b : Bool) : bool :=
  match b with BoolValue v => v | _ => false end.

(** [Elements] of a null or unknown set is empty. *)
Definition Elements {E} (s : Set_ E) : list E :=
  match s with SetValue elems => elems | _ => [] end.

End types.

(** ** Go standard library *)

Module strconv.

Definition dquote : string := String (ascii_of_nat 34) EmptyString.

(** [strconv.ParseBool]: exactly twelve literals are accepted.  The
    error text quotes the input; Go escapes it with [strconv.Quote],
    which is not modelled, as [Configure] only tests the error for
    [nil]. *)
Definition ParseBool (str : string) : result bool :=
  if bool_decide (str ∈ ["1"; "t"; "T"; "true"; "TRUE"; "True"])
  then Ok true
  else if bool_decide (str ∈ ["0"; "f"; "F"; "false"; "FALSE"; "False"])
  then Ok false
  else Err ("strconv.ParseBool: parsing " +:+ dquote +:+ str +:+ dquote
            +:+ ": invalid syntax").

End strconv.

Module os.

(** The process environment. *)
Definition Environ := gmap string string.

(** [os.Getenv]: the value of the variable, empty when it is not set. *)
Definition Getenv (env : Environ) (key : string) : string :=
  default EmptyString (env !! key).

End os.

(** ** The remote API client (package [goca]) and the provider session *)

Module goca.

(** [goca.NewClient(goca.NewConfig(user, password, endpoint), httpClient)],
    where the HTTP client's transport carries [InsecureSkipVerify]. *)
Record Client : Type := NewClient {
  client_user : string;
  client_password : string;
  client_endpoint : string;
  InsecureSkipVerify : bool
}.

(** [goca.NewDefaultFlowClient(goca.NewFlowConfig(user, password, endpoint))] *)
Record FlowClient : Type := NewDefaultFlowClient {
  flow_user : string;
  flow_password : string;
  flow_endpoint : string
}.

Inductive Controller : Type :=
| NewController (c : Client)
| NewGenericController (c : Client) (f : FlowClient).

End goca.

Module ver.

(** A parsed version of package [go-version]. *)
Record Version : Type := mkVersion {
  segments : list Z;
  pre : string;
  metadata : string;
  original : string
}.

End ver.

Module utils.

(** Modelled from the spec: the keyed mutex registry of package [utils],
    of which [Configure] only calls the constructor.  The registry maps
    keys to locks created on first use; [store] is the set of keys that
    have a lock, and [NewMutexKV] has none. *)
Record MutexKV : Type := mkMutexKV { store : gset string }.

Definition NewMutexKV : MutexKV := mkMutexKV ∅.

End utils.

Module config.

(** [config.Provider], the session handed to data sources and resources. *)
Record Provider : Type := mkProvider {
  OneVersion : ver.Version;
  Mutex : utils.MutexKV;
  Controller : goca.Controller;
  DefaultTags : gmap string string
}.

End config.

(** ** The declared configuration *)

(** One [default_tags] block, seen through the two calls [Configure] makes
    on it: [t.ToTerraformValue(ctx)] either fails or gives a value, and
    that value either decodes into the typed tag set or does not. *)
Inductive TagBlock : Type :=
| BlockNotConvertible (err : error)
| BlockNotDecodable (err : error)
| BlockTags (tags : gmap string string).

(** The field [DefaultTags] of the Go struct is [DefaultTags_] here, as the
    name is taken by the type [DefaultTags] of the same package. *)
Record opennebulaProviderModel : Type := mkModel {
  Endpoint : types.String;
  FlowEndpoint : types.String;
  Username : types.String;
  Password : types.String;
  Insecure : types.Bool;
  DefaultTags_ : types.Set_ TagBlock
}.

(** [provider.ConfigureRequest]: [req.Config.Get(ctx, &config)] gives the
    diagnostics of the decoding and fills [config]. *)
Record ConfigureRequest : Type := mkRequest {
  Get_diags : diag.Diagnostics;
  Get_config : opennebulaProviderModel
}.

(** [provider.ConfigureResponse] *)
Record ConfigureResponse : Type := mkResponse {
  Diagnostics : diag.Diagnostics;
  DataSourceData : option config.Provider;
  ResourceData : option config.Provider
}.

(** What [Configure] depends on outside the program: the process
    environment, the answer of the remote system to the version query made
    through a client, and the version parser of [go-version]. *)
Record World : Type := mkWorld {
  environ : os.Environ;
  SystemVersion : goca.Client -> result string;
  NewVersion : string -> result ver.Version
}.

(** Lines written with package [log]. *)
Inductive LogLine : Type :=
| InfoVersion (versionStr : string)
| DebugToTerraformValueErr (err : error)
| DebugAsErr (err : error)
| DebugDefaultTags (elements : gmap string string).

(** ** Default tags *)

(** Modelled from the spec: the typed tag set [DefaultTags], declared in
    another file of the package; it holds the mapping from tag name to tag
    value in [Elements]. *)
Record DefaultTags : Type := mkDefaultTags {
  Elements : gmap string string
}.

(** [t.ToTerraformValue(ctx)] *)
Definition ToTerraformValue (t : TagBlock) : result TagBlock :=
  match t with
  | BlockNotConvertible err => Err err
  | _ => Ok t
  end.

(** Modelled from the spec: the decoding of one block into the tag set,
    which [Configure] reaches through [element.As(&tags)] and which is
    declared with [DefaultTags].  A block holds a mapping of tag name to
    tag value; decoding it into a tag set that already has entries keeps
    them, except that the block's entry replaces the one under the same
    name; a block that does not decode leaves the tag set as it was. *)
Definition As (element : TagBlock) (tags : DefaultTags) : result DefaultTags :=
  match element with
  | BlockTags m => Ok (mkDefaultTags (m ∪ Elements tags))
  | BlockNotDecodable err => Err err
  | BlockNotConvertible err => Err err
  end.

(** One iteration of the loop over [config.DefaultTags.Elements()]
    (lines 263-274): the state is [tags] and the log written so far. *)
Definition tags_step (st : DefaultTags * list LogLine) (t : TagBlock)
  : DefaultTags * list LogLine :=
  let '(tags, log) := st in
  match ToTerraformValue t with
  | Err err => (tags, log ++ [DebugToTerraformValueErr err])
  | Ok element =>
      match As element tags with
      | Err err => (tags, log ++ [DebugAsErr err])
      | Ok tags' => (tags', log)
      end
  end.

(** Lines 262-274: [var tags DefaultTags] and the loop. *)
Definition aggregate_tags (elems : list TagBlock) : DefaultTags * list LogLine :=
  foldl tags_step (mkDefaultTags ∅, []) elems.

(** ** [Configure], block by block *)

(** Lines 98-99: the diagnostics of [req.Config.Get] are appended to the
    response, whose collection is empty when [Configure] is entered. *)
Definition decode (req : ConfigureRequest) : diag.Diagnostics :=
  diag.Append [] (Get_diags req).

(** Lines 104-129: the three checks for a value that is not yet known. *)
Definition unknown_checks (config : opennebulaProviderModel)
    (ds : diag.Diagnostics) : diag.Diagnostics :=
  let ds :=
    if types.String_IsUnknown (Endpoint config) then
      diag.AddAttributeError ds (path.Root "endpoint")
        "Unknown OpenNebula XML-RPC API endpoint"
        ("The provider cannot create the OpenNebula XML-RPC client as there is an unknown configuration value for the OpenNebula API endpoint. "
         +:+ "Either target apply the source of the value first, set the value statically in the configuration, or use the OPENNEBULA_ENDPOINT environment variable.")
    else ds in
  let ds :=
    if types.String_IsUnknown (Username config) then
      diag.AddAttributeError ds (path.Root "username")
        "Unknown OpenNebula XML-RPC API username"
        ("The provider cannot create the OpenNebula XML-RPC client as there is an unknown configuration value for the OpenNebula API username. "
         +:+ "Either target apply the source of the value first, set the value statically in the configuration, or use the OPENNEBULA_USERNAME environment variable.")
    else ds in
  let ds :=
    if types.String_IsUnknown (Password config) then
      diag.AddAttributeError ds (path.Root "password")
        "Unknown OpenNebula XML-RPC API password"
        ("The provider cannot create the OpenNebula XML-RPC client as there is an unknown configuration value for the OpenNebula API password. "
         +:+ "Either target apply the source of the value first, set the value statically in the configuration, or use the OPENNEBULA_PASSWORD environment variable.")
    else ds in
  ds.

(** The local variables of [Configure] that hold the resolved settings. *)
Record Resolved : Type := mkResolved {
  endpoint : string;
  flowEndpoint : string;
  username : string;
  password : string;
  insecure : bool
}.

(** Lines 138-176: defaults from the environment, then the overrides from
    the declared configuration.  [strconv.ParseBool] returns [false] with
    its error, so [insecure] is [false] after a failed parse. *)
Definition resolve (env : os.Environ) (config : opennebulaProviderModel)
    (ds : diag.Diagnostics) : Resolved * diag.Diagnostics :=
  let endpoint := os.Getenv env "OPENNEBULA_ENDPOINT" in
  let flowEndpoint := os.Getenv env "OPENNEBULA_FLOW_ENDPOINT" in
  let username := os.Getenv env "OPENNEBULA_USERNAME" in
  let password := os.Getenv env "OPENNEBULA_PASSWORD" in
  let insecureStr := os.Getenv env "OPENNEBULA_INSECURE" in
  let insecure := false in
  let '(insecure, ds) :=
    if bool_decide (0 < String.length insecureStr) then
      match strconv.ParseBool insecureStr with
      | Ok b => (b, ds)
      | Err _ =>
          (false,
           diag.AddAttributeError ds (path.Root "insecure")
             "Failed to parse boolean value from the OPENNEBULA_INSECURE environment variable"
             "The provider cannot create the OpenNebula XML-RPC client as there is an unknown configuration value for the OPENNEBULA_INSECURE environment variable.")
      end
    else (insecure, ds) in
  let endpoint :=
    if negb (types.String_IsNull (Endpoint config))
    then types.ValueString (Endpoint config) else endpoint in
  let flowEndpoint :=
    if negb (types.String_IsNull (Endpoint config))
    then types.ValueString (Endpoint config) else flowEndpoint in
  let username :=
    if negb (types.String_IsNull (Username config))
    then types.ValueString (Username config) else username in
  let password :=
    if negb (types.String_IsNull (Password config))
    then types.ValueString (Password config) else password in
  let insecure :=
    if negb (types.Bool_IsNull (Insecure config))
    then types.ValueBool (Insecure config) else insecure in
  (mkResolved endpoint flowEndpoint username password insecure, ds).

(** Lines 181-209: the three checks for an empty required setting. *)
Definition missing_checks (r : Resolved) (ds : diag.Diagnostics)
  : diag.Diagnostics :=
  let ds :=
    if bool_decide (endpoint r = EmptyString) then
      diag.AddAttributeError ds (path.Root "endpoint")
        "Missing OpenNebula XML-RPC endpoint"
        ("The provider cannot create the OpenNebula XML-RPC client as there is a missing or empty value for the OpenNebula API endpoint. "
         +:+ "Set the endpoint value in the configuration or use the OPENNEBULA_ENDPOINT environment variable. "
         +:+ "If either is already set, ensure the value is not empty.")
    else ds in
  let ds :=
    if bool_decide (username r = EmptyString) then
      diag.AddAttributeError ds (path.Root "username")
        "Missing OpenNebula account username"
        ("The provider cannot create the OpenNebula XML-RPC client as there is a missing or empty value for the OpenNebula username. "
         +:+ "Set the endpoint value in the configuration or use the OPENNEBULA_USERNAME environment variable. "
         +:+ "If either is already set, ensure the value is not empty.")
    else ds in
  let ds :=
    if bool_decide (password r = EmptyString) then
      diag.AddAttributeError ds (path.Root "endpoint")
        "Missing OpenNebula account password"
        ("The provider cannot create the OpenNebula XML-RPC client as there is a missing or empty value for the OpenNebula password. "
         +:+ "Set the endpoint value in the configuration or use the OPENNEBULA_PASSWORD environment variable. "
         +:+ "If either is already set, ensure the value is not empty.")
    else ds in
  ds.

(** Lines 215-223: the client built from the resolved settings. *)
Definition new_client (r : Resolved) : goca.Client :=
  goca.NewClient (username r) (password r) (endpoint r) (insecure r).

(** Lines 251-260: the controller, with a flow client when a flow endpoint
    was resolved. *)
Definition new_controller (r : Resolved) (client : goca.Client)
  : goca.Controller :=
  if bool_decide (0 < String.length (flowEndpoint r)) then
    let flowClient :=
      goca.NewDefaultFlowClient (username r) (password r) (flowEndpoint r) in
    goca.NewGenericController client flowClient
  else goca.NewController client.

(** What a call of [Configure] leaves behind: the response and the log. *)
Record Outcome : Type := mkOutcome {
  resp : ConfigureResponse;
  log : list LogLine
}.

(** An early [return]: only diagnostics have been written to [resp]. *)
Definition returned (ds : diag.Diagnostics) : Outcome :=
  mkOutcome (mkResponse ds None None) [].

(** Lines 215-285: the version query through a new client, the parsing of
    its answer, and the assembly of the session.  [ds] is
    [resp.Diagnostics] as the validation left it. *)
Definition connect (w : World) (config : opennebulaProviderModel)
    (r : Resolved) (ds : diag.Diagnostics) : Outcome :=
  let client := new_client r in
  match SystemVersion w client with
  | Err err =>
      returned (diag.AddError ds "Failed to get OpenNebula release number" err)
  | Ok versionStr =>
      match NewVersion w versionStr with
      | Err err =>
          returned (diag.AddError ds "Failed to parse OpenNebula version" err)
      | Ok version =>
          let cfg :=
            config.mkProvider version utils.NewMutexKV
              (new_controller r client) ∅ in
          let '(tags, taglog) :=
            aggregate_tags (types.Elements (DefaultTags_ config)) in
          let cfg :=
            if bool_decide (0 < size (Elements tags)) then
              config.mkProvider (config.OneVersion cfg) (config.Mutex cfg)
                (config.Controller cfg) (Elements tags)
            else cfg in
          mkOutcome (mkResponse ds (Some cfg) (Some cfg))
            ([InfoVersion versionStr] ++ taglog
             ++ [DebugDefaultTags (Elements tags)])
      end
  end.

(** Lines 98-213: everything before the first network call.  The result
    is [resp.Diagnostics] and, unless one of the three [return]s was taken,
    the resolved settings. *)
Definition validate (env : os.Environ) (req : ConfigureRequest)
  : diag.Diagnostics * option Resolved :=
  let config := Get_config req in
  let ds := decode req in
  if diag.HasError ds then (ds, None) else
  let ds := unknown_checks config ds in
  if diag.HasError ds then (ds, None) else
  let '(r, ds) := resolve env config ds in
  let ds := missing_checks r ds in
  if diag.HasError ds then (ds, None) else
  (ds, Some r).

(** [func (p *OpenNebulaProvider) Configure(ctx, req, resp)] *)
Definition Configure (w : World) (req : ConfigureRequest) : Outcome :=
  match validate (environ w) req with
  | (ds, None) => returned ds
  | (ds, Some r) => connect w (Get_config req) r ds
  end.

(** ** Definitions used to state the properties *)

(** The diagnostic of line 150, for an [OPENNEBULA_INSECURE] that does
    not parse. *)
Definition insecure_parse_error : diag.Diagnostic :=
  diag.NewAttributeErrorDiagnostic (path.Root "insecure")
    "Failed to parse boolean value from the OPENNEBULA_INSECURE environment variable"
    "The provider cannot create the OpenNebula XML-RPC client as there is an unknown configuration value for the OPENNEBULA_INSECURE environment variable.".

(** What the environment alone says about [insecure] (lines 143-156). *)
Definition env_insecure (env : os.Environ) : bool :=
  let insecureStr := os.Getenv env "OPENNEBULA_INSECURE" in
  if bool_decide (0 < String.length insecureStr) then
    match strconv.ParseBool insecureStr with
    | Ok b => b
    | Err _ => false
    end
  else false.

Definition insecure_diags (env : os.Environ) : diag.Diagnostics :=
  let insecureStr := os.Getenv env "OPENNEBULA_INSECURE" in
  if bool_decide (0 < String.length insecureStr) then
    match strconv.ParseBool insecureStr with
    | Ok _ => []
    | Err _ => [insecure_parse_error]
    end
  else [].

(** The resolved settings do not depend on the diagnostics so far. *)
Definition resolved (env : os.Environ) (config : opennebulaProviderModel)
  : Resolved := fst (resolve env config []).

(** The three settings that must not be empty. *)
Inductive RequiredField : Type :=
| FEndpoint
| FUsername
| FPassword.

#[global] Instance RequiredField_eq_dec : EqDecision RequiredField.
Proof. solve_decision. Defined.

(** The attribute of the schema, and the environment variable, a required
    setting is read from. *)
Definition attribute (f : RequiredField) : string :=
  match f with
  | FEndpoint => "endpoint"
  | FUsername => "username"
  | FPassword => "password"
  end.

Definition variable (f : RequiredField) : string :=
  match f with
  | FEndpoint => "OPENNEBULA_ENDPOINT"
  | FUsername => "OPENNEBULA_USERNAME"
  | FPassword => "OPENNEBULA_PASSWORD"
  end.

Definition declared (config : opennebulaProviderModel) (f : RequiredField)
  : types.String :=
  match f with
  | FEndpoint => Endpoint config
  | FUsername => Username config
  | FPassword => Password config
  end.

Definition setting (r : Resolved) (f : RequiredField) : string :=
  match f with
  | FEndpoint => endpoint r
  | FUsername => username r
  | FPassword => password r
  end.

(** The required settings whose declared value is not yet known, and those
    that resolved to the empty string, in the order of the checks. *)
Definition unknown_required (config : opennebulaProviderModel)
  : list RequiredField :=
  List.filter (fun f => types.String_IsUnknown (declared config f))
    [FEndpoint; FUsername; FPassword].

Definition empty_required (r : Resolved) : list RequiredField :=
  List.filter (fun f => bool_decide (setting r f = EmptyString))
    [FEndpoint; FUsername; FPassword].

(** The summaries of the diagnostics of lines 104-129 and 181-209. *)
Definition unknown_summary (f : RequiredField) : string :=
  match f with
  | FEndpoint => "Unknown OpenNebula XML-RPC API endpoint"
  | FUsername => "Unknown OpenNebula XML-RPC API username"
  | FPassword => "Unknown OpenNebula XML-RPC API password"
  end.

Definition missing_summary (f : RequiredField) : string :=
  match f with
  | FEndpoint => "Missing OpenNebula XML-RPC endpoint"
  | FUsername => "Missing OpenNebula account username"
  | FPassword => "Missing OpenNebula account password"
  end.

(** The precedence the declared configuration has over the environment:
    a declared value that is neither null nor unknown, else the value of
    the environment variable, which is empty when the variable is unset. *)
Definition precedence (declared : types.String) (from_env : string) : string :=
  match declared with
  | types.StringValue v => v
  | _ => from_env
  end.

(** The literals [strconv.ParseBool] accepts. *)
Definition bool_literals : list string :=
  ["1"; "t"; "T"; "true"; "TRUE"; "True";
   "0"; "f"; "F"; "false"; "FALSE"; "False"].

(** [strings.Contains(s, sub)] *)
Fixpoint is_substring (sub s : string) : bool :=
  String.prefix sub s
  || match s with
     | EmptyString => false
     | String _ s' => is_substring sub s'
     end.

(** The tags of one block, when it decodes. *)
Definition block_lookup (k : string) (b : TagBlock) : option string :=
  match b with
  | BlockTags m => m !! k
  | _ => None
  end.

(** Last-wins over the blocks in declared order: the value of [k] in the
    last block that decodes and has [k]. *)
Fixpoint last_wins (k : string) (blocks : list TagBlock) : option string :=
  match blocks with
  | [] => None
  | b :: rest =>
      match last_wins k rest with
      | Some v => Some v
      | None => block_lookup k b
      end
  end.

(** The union with one block: its entries, and those of the tags so far
    under the other names. *)
Definition merge_block (acc : gmap string string) (b : TagBlock)
  : gmap string string :=
  match b with
  | BlockTags m => m ∪ acc
  | _ => acc
  end.

(** The log lines of the blocks that are skipped. *)
Definition skipped_log (b : TagBlock) : list LogLine :=
  match b with
  | BlockNotConvertible err => [DebugToTerraformValueErr err]
  | BlockNotDecodable err => [DebugAsErr err]
  | BlockTags _ => []
  end.

(** Inputs for the examples: a remote system that answers the version
    query with 6.8.0, one that cannot be reached, one that answers with
    something that is no version, and a parser that knows 6.8.0. *)
Definition remote_ok : goca.Client -> result string :=
  fun _ => Ok "6.8.0".

Definition remote_down : goca.Client -> result string :=
  fun _ => Err "connection refused".

Definition remote_garbled : goca.Client -> result string :=
  fun _ => Ok "six".

Definition parse_version (s : string) : result ver.Version :=
  if bool_decide (s = "6.8.0")
  then Ok (ver.mkVersion [6; 8; 0]%Z EmptyString EmptyString s)
  else Err ("Malformed version: " +:+ s).

Definition declared_config (e f u p : types.String) (i : types.Bool)
    (blocks : list TagBlock) : ConfigureRequest :=
  mkRequest [] (mkModel e f u p i (types.SetValue blocks)).

(** ** The schema of the provider *)

Module schema.

Inductive AttrType : Type :=
| StringType
| BoolType
| MapType (ElementType : AttrType).

(** An attribute of a schema.  The Go literals of [Schema] set [Optional]
    and [Description] only; the other flags keep their zero value. *)
Record Attribute : Type := mkAttribute {
  Type_of : AttrType;
  Required : bool;
  Optional : bool;
  Computed : bool;
  Sensitive : bool;
  Description : string
}.

Definition StringAttribute (optional : bool) (description : string)
  : Attribute :=
  mkAttribute StringType false optional false false description.

Definition BoolAttribute (optional : bool) (description : string)
  : Attribute :=
  mkAttribute BoolType false optional false false description.

Definition MapAttribute (optional : bool) (description : string)
    (elementType : AttrType) : Attribute :=
  mkAttribute (MapType elementType) false optional false false description.

(** [schema.SetNestedBlock] with its [NestedObject]. *)
Record SetNestedBlock : Type := mkSetNestedBlock {
  BlockDescription : string;
  NestedAttributes : gmap string Attribute
}.

Record Schema : Type := mkSchema {
  Attributes : gmap string Attribute;
  Blocks : gmap string SetNestedBlock
}.

End schema.

(** [func (p *OpenNebulaProvider) Schema(ctx, req, resp)]: the value
    assigned to [resp.Schema] (lines 50-92). *)
Definition Schema : schema.Schema :=
  schema.mkSchema
    {[ "endpoint" :=
         schema.StringAttribute true
           "The URL to your public or private OpenNebula";
       "flow_endpoint" :=
         schema.StringAttribute true
           "The URL to your public or private OpenNebula Flow server";
       "username" :=
         schema.StringAttribute true "The ID of the user to identify as";
       "password" :=
         schema.StringAttribute true "The password for the user";
       "insecure" :=
         schema.BoolAttribute true "Disable TLS validation" ]}
    {[ "default_tags" :=
         schema.mkSetNestedBlock "Add default tags to the resources"
           {[ "tags" :=
                schema.MapAttribute true "Default tags to apply"
                  schema.StringType ]} ]}.

(** ** Further definitions used to state properties *)

(** The client of a controller, and its flow client when it has one. *)
Definition controller_client (c : goca.Controller) : goca.Client :=
  match c with
  | goca.NewController client => client
  | goca.NewGenericController client _ => client
  end.

Definition controller_flow (c : goca.Controller) : option goca.FlowClient :=
  match c with
  | goca.NewController _ => None
  | goca.NewGenericController _ flowClient => Some flowClient
  end.

(** The setting of a client that comes from a required setting. *)
Definition client_setting (c : goca.Client) (f : RequiredField) : string :=
  match f with
  | FEndpoint => goca.client_endpoint c
  | FUsername => goca.client_user c
  | FPassword => goca.client_password c
  end.

(** The environment variables [Configure] reads (lines 138-143). *)
Definition variables : list string :=
  ["OPENNEBULA_ENDPOINT"; "OPENNEBULA_FLOW_ENDPOINT"; "OPENNEBULA_USERNAME";
   "OPENNEBULA_PASSWORD"; "OPENNEBULA_INSECURE"].

(** The literals [strconv.ParseBool] reads as [true]. *)
Definition true_literals : list string :=
  ["1"; "t"; "T"; "true"; "TRUE"; "True"].

(** Everything the three checks of lines 100, 131 and 211 ask for: the
    decoding reported no error, no required setting is unknown,
    [OPENNEBULA_INSECURE] is unset, empty or a boolean literal, and no
    required setting resolves to the empty string. *)
Definition checks_pass (env : os.Environ) (req : ConfigureRequest) : Prop :=
  diag.HasError (Get_diags req) = false
  /\ unknown_required (Get_config req) = []
  /\ (os.Getenv env "OPENNEBULA_INSECURE" = EmptyString
      \/ os.Getenv env "OPENNEBULA_INSECURE" ∈ bool_literals)
  /\ empty_required (resolved env (Get_config req)) = [].

(** * Properties *)

(** ** Diagnostics collections *)

Section DiagnosticsFacts.
Import diag.
Implicit Types (d : Diagnostic) (ds new extra : Diagnostics).

Lemma Append_nil ds : Append ds [] = ds.
Proof. reflexivity. Qed.

Lemma Append_cons ds d new :
  Append ds (d :: new)
  = Append (if Contains ds d then ds else ds ++ [d]) new.
Proof. reflexivity. Qed.

Lemma Append_one ds d :
  Append ds [d] = if Contains ds d then ds else ds ++ [d].
Proof. reflexivity. Qed.

Lemma HasError_app ds new :
  HasError (ds ++ new) = HasError ds || HasError new.
Proof. unfold HasError. apply existsb_app. Qed.

Lemma HasError_true ds :
  HasError ds = true <-> exists d, d ∈ ds /\ is_error d = true.
Proof.
  unfold HasError. rewrite existsb_exists.
  split; intros (d & Hin & He); exists d; split; auto;
    by apply list_elem_of_In.
Qed.

Lemma HasError_false ds :
  HasError ds = false <-> forall d, d ∈ ds -> is_error d = false.
Proof.
  split.
  - intros H d Hin. destruct (is_error d) eqn:E; [|done].
    assert (HasError ds = true) by (apply HasError_true; eauto).
    congruence.
  - intros H. destruct (HasError ds) eqn:E; [|done].
    apply HasError_true in E as (d & Hin & He).
    rewrite (H d Hin) in He. discriminate.
Qed.

(** Appending keeps what is there and only adds at the end. *)
Lemma Append_extends ds new : exists added, Append ds new = ds ++ added.
Proof.
  revert ds. induction new as [|d new IH]; intros ds.
  - exists []. by rewrite Append_nil, app_nil_r.
  - rewrite Append_cons. destruct (Contains ds d).
    + apply IH.
    + destruct (IH (ds ++ [d])) as [added ->].
      exists (d :: added). by rewrite <- app_assoc.
Qed.

Lemma elem_of_Append d ds new :
  d ∈ Append ds new <-> d ∈ ds \/ d ∈ new.
Proof.
  revert ds. induction new as [|d' new IH]; intros ds.
  - rewrite Append_nil, elem_of_nil. tauto.
  - rewrite Append_cons, IH, elem_of_cons. unfold Contains.
    case_bool_decide as Hin.
    + split; [tauto|]. intros [?|[->|?]]; auto.
    + rewrite elem_of_app, list_elem_of_singleton. tauto.
Qed.

Lemma HasError_Append ds new :
  HasError (Append ds new) = HasError ds || HasError new.
Proof.
  apply eq_true_iff_eq. rewrite orb_true_iff, !HasError_true.
  split.
  - intros (d & Hin & He). apply elem_of_Append in Hin as [Hin|Hin]; eauto.
  - intros [(d & Hin & He)|(d & Hin & He)]; exists d;
      rewrite elem_of_Append; auto.
Qed.

(** An error diagnostic is new to a collection that has warnings
    followed by diagnostics it differs from. *)
Lemma Append_fresh ds extra d :
  HasError ds = false -> is_error d = true -> d ∉ extra ->
  Append (ds ++ extra) [d] = ds ++ (extra ++ [d]).
Proof.
  intros Hds Hd Hex. rewrite Append_one. unfold Contains.
  case_bool_decide as Hin.
  - apply elem_of_app in Hin as [Hin|Hin]; [|done].
    rewrite HasError_false in Hds. rewrite (Hds d Hin) in Hd. discriminate.
  - by rewrite <- app_assoc.
Qed.

Lemma AddError_fresh ds summary detail :
  HasError ds = false ->
  AddError ds summary detail = ds ++ [NewErrorDiagnostic summary detail].
Proof.
  intros Hds. unfold AddError.
  rewrite <- (app_nil_r ds) at 1.
  rewrite Append_fresh; [done | done | done | apply not_elem_of_nil].
Qed.

Lemma AddAttributeError_fresh ds extra p summary detail :
  HasError ds = false ->
  NewAttributeErrorDiagnostic p summary detail ∉ extra ->
  AddAttributeError (ds ++ extra) p summary detail
  = ds ++ (extra ++ [NewAttributeErrorDiagnostic p summary detail]).
Proof. intros Hds Hex. unfold AddAttributeError. by apply Append_fresh. Qed.

Lemma errors_app ds new : errors (ds ++ new) = errors ds ++ errors new.
Proof. unfold errors. apply List.filter_app. Qed.

Lemma errors_nil_of_no_error ds : HasError ds = false -> errors ds = [].
Proof.
  intros H. rewrite HasError_false in H. unfold errors.
  induction ds as [|d ds IH]; [done|]. simpl.
  rewrite (H d) by apply list_elem_of_here.
  apply IH. intros d' Hd'. apply H. by apply list_elem_of_further.
Qed.

End DiagnosticsFacts.

(** ** The blocks of [Configure] *)

(** Closes [d ∉ extra] for diagnostics written out in full. *)
Ltac fresh_diagnostic :=
  first [ assumption
        | apply not_elem_of_nil
        | apply (bool_decide_unpack _); vm_compute; exact I ].

(** Turns every [AddAttributeError] of the goal's left-hand side into the
    diagnostic it adds at the end of the collection [ds]. *)
Ltac add_at_end ds :=
  rewrite <- (app_nil_r ds) at 1;
  repeat (rewrite AddAttributeError_fresh by fresh_diagnostic).

Section Blocks.
Import diag.
Implicit Types (ds : Diagnostics) (config : opennebulaProviderModel)
  (r : Resolved) (env : os.Environ).

(** The unknown-value checks only add at the end of a collection that
    has no error yet, whatever else it holds. *)
Lemma unknown_checks_frame config ds :
  HasError ds = false ->
  unknown_checks config ds = ds ++ unknown_checks config [].
Proof.
  intros Hds. unfold unknown_checks.
  destruct (types.String_IsUnknown (Endpoint config)),
           (types.String_IsUnknown (Username config)),
           (types.String_IsUnknown (Password config));
    add_at_end ds; reflexivity.
Qed.

Lemma resolve_fst env config ds :
  fst (resolve env config ds) = resolved env config.
Proof.
  unfold resolved, resolve.
  destruct (bool_decide _); [destruct (strconv.ParseBool _)|]; reflexivity.
Qed.

Lemma resolve_snd env config ds :
  HasError ds = false ->
  snd (resolve env config ds) = ds ++ insecure_diags env.
Proof.
  intros Hds. unfold resolve, insecure_diags.
  destruct (bool_decide _); [destruct (strconv.ParseBool _)|]; simpl;
    rewrite ?app_nil_r; try reflexivity.
  add_at_end ds. reflexivity.
Qed.

Lemma resolved_eq env config :
  resolved env config
  = mkResolved
      (if types.String_IsNull (Endpoint config)
       then os.Getenv env "OPENNEBULA_ENDPOINT"
       else types.ValueString (Endpoint config))
      (if types.String_IsNull (Endpoint config)
       then os.Getenv env "OPENNEBULA_FLOW_ENDPOINT"
       else types.ValueString (Endpoint config))
      (if types.String_IsNull (Username config)
       then os.Getenv env "OPENNEBULA_USERNAME"
       else types.ValueString (Username config))
      (if types.String_IsNull (Password config)
       then os.Getenv env "OPENNEBULA_PASSWORD"
       else types.ValueString (Password config))
      (if types.Bool_IsNull (Insecure config)
       then env_insecure env
       else types.ValueBool (Insecure config)).
Proof.
  unfold resolved, resolve, env_insecure.
  destruct (bool_decide _); [destruct (strconv.ParseBool _)|]; simpl;
    destruct (types.String_IsNull (Endpoint config)),
             (types.String_IsNull (Username config)),
             (types.String_IsNull (Password config)),
             (types.Bool_IsNull (Insecure config)); reflexivity.
Qed.

Lemma insecure_diags_cases env :
  insecure_diags env = [] \/ insecure_diags env = [insecure_parse_error].
Proof.
  unfold insecure_diags.
  destruct (bool_decide _); [destruct (strconv.ParseBool _)|]; auto.
Qed.

(** The emptiness checks only add at the end, after the diagnostics of
    the decoding and of the parsing of [OPENNEBULA_INSECURE]. *)
Lemma missing_checks_frame env r ds :
  HasError ds = false ->
  missing_checks r (ds ++ insecure_diags env)
  = ds ++ insecure_diags env ++ missing_checks r [].
Proof.
  intros Hds. unfold missing_checks.
  destruct (insecure_diags_cases env) as [-> | ->];
    destruct (bool_decide (endpoint r = EmptyString)),
             (bool_decide (username r = EmptyString)),
             (bool_decide (password r = EmptyString));
    repeat (rewrite AddAttributeError_fresh by fresh_diagnostic);
    rewrite ?app_nil_r; try reflexivity;
    add_at_end ds; reflexivity.
Qed.

(** [validate] with the diagnostics of each block written apart. *)
Lemma validate_eq env req :
  validate env req =
    let config := Get_config req in
    let ds0 := decode req in
    if HasError ds0 then (ds0, None) else
    if HasError (unknown_checks config [])
    then (ds0 ++ unknown_checks config [], None) else
    let r := resolved env config in
    let ds := ds0 ++ insecure_diags env ++ missing_checks r [] in
    if HasError (insecure_diags env ++ missing_checks r [])
    then (ds, None) else (ds, Some r).
Proof.
  unfold validate. cbv zeta.
  destruct (HasError (decode req)) eqn:H0; [reflexivity|].
  rewrite (unknown_checks_frame _ _ H0), HasError_app, H0. simpl.
  destruct (HasError (unknown_checks (Get_config req) [])) eqn:H1;
    [reflexivity|].
  assert (unknown_checks (Get_config req) [] = []) as ->.
  { clear -H1. revert H1. unfold unknown_checks.
    destruct (types.String_IsUnknown (Endpoint (Get_config req))),
             (types.String_IsUnknown (Username (Get_config req))),
             (types.String_IsUnknown (Password (Get_config req)));
      vm_compute; congruence. }
  rewrite app_nil_r.
  pose proof (resolve_fst env (Get_config req) (decode req)) as Hf.
  pose proof (resolve_snd env (Get_config req) (decode req) H0) as Hs.
  destruct (resolve env (Get_config req) (decode req)) as [r ds].
  simpl in Hf, Hs. subst r ds.
  rewrite (missing_checks_frame _ _ _ H0), HasError_app, H0. simpl.
  reflexivity.
Qed.

(** What the unknown-value checks and the emptiness checks add: one error
    per offending setting, in the order of the checks. *)
Lemma unknown_checks_nil config :
  map Summary (unknown_checks config [])
    = map unknown_summary (unknown_required config)
  /\ map Path_of (unknown_checks config [])
    = map (fun f => Some (path.Root (attribute f))) (unknown_required config)
  /\ errors (unknown_checks config []) = unknown_checks config [].
Proof.
  unfold unknown_checks, unknown_required. simpl.
  destruct (types.String_IsUnknown (Endpoint config)),
           (types.String_IsUnknown (Username config)),
           (types.String_IsUnknown (Password config));
    repeat split; reflexivity.
Qed.

Lemma missing_checks_nil r :
  map Summary (missing_checks r [])
    = map missing_summary (empty_required r)
  /\ map Path_of (missing_checks r [])
    = map (fun f => Some (path.Root
                           match f with
                           | FPassword => "endpoint"
                           | _ => attribute f
                           end))
        (empty_required r)
  /\ errors (missing_checks r []) = missing_checks r [].
Proof.
  unfold missing_checks, empty_required. simpl.
  destruct (bool_decide (endpoint r = EmptyString)),
           (bool_decide (username r = EmptyString)),
           (bool_decide (password r = EmptyString));
    repeat split; reflexivity.
Qed.

Lemma errors_all_HasError ds :
  errors ds = ds -> HasError ds = negb (bool_decide (ds = [])).
Proof.
  destruct ds as [|d ds]; [reflexivity|].
  unfold errors, HasError. simpl. destruct (is_error d); [reflexivity|].
  intros H. exfalso.
  assert (d ∈ List.filter is_error ds) as Hin
    by (rewrite H; apply list_elem_of_here).
  apply list_elem_of_In, List.filter_In in Hin as [Hin _].
  assert (length (List.filter is_error ds) <= length ds)
    by apply List.filter_length_le.
  rewrite H in *. simpl in *. lia.
Qed.

Lemma map_eq_nil_iff {A B} (f : A -> B) (l : list A) : map f l = [] <-> l = [].
Proof. destruct l; simpl; split; congruence. Qed.

Lemma HasError_unknown_checks config :
  HasError (unknown_checks config [])
  = negb (bool_decide (unknown_required config = [])).
Proof.
  destruct (unknown_checks_nil config) as (Hs & _ & He).
  rewrite (errors_all_HasError _ He). f_equal.
  apply bool_decide_ext.
  rewrite <- (map_eq_nil_iff Summary), Hs. apply map_eq_nil_iff.
Qed.

Lemma HasError_missing_checks r :
  HasError (missing_checks r [])
  = negb (bool_decide (empty_required r = [])).
Proof.
  destruct (missing_checks_nil r) as (Hs & _ & He).
  rewrite (errors_all_HasError _ He). f_equal.
  apply bool_decide_ext.
  rewrite <- (map_eq_nil_iff Summary), Hs. apply map_eq_nil_iff.
Qed.

Lemma HasError_decode req : HasError (decode req) = HasError (Get_diags req).
Proof. unfold decode. apply HasError_Append. Qed.

(** When [validate] gives settings, nothing was added to the diagnostics of
    the decoding, which hold no error, and every check passed. *)
Lemma validate_Some env req ds r :
  validate env req = (ds, Some r) ->
  ds = decode req /\ HasError ds = false
  /\ r = resolved env (Get_config req)
  /\ unknown_required (Get_config req) = []
  /\ insecure_diags env = []
  /\ empty_required r = [].
Proof.
  rewrite validate_eq. cbv zeta.
  destruct (HasError (decode req)) eqn:H0; [discriminate|].
  rewrite HasError_unknown_checks.
  case_bool_decide as Hu; simpl; [|discriminate].
  rewrite HasError_app, HasError_missing_checks.
  destruct (insecure_diags_cases env) as [Hi | Hi]; rewrite Hi; simpl;
    [|discriminate].
  case_bool_decide as Hm; simpl; [|discriminate].
  intros [= <- <-].
  assert (missing_checks (resolved env (Get_config req)) [] = []) as ->.
  { destruct (missing_checks_nil (resolved env (Get_config req))) as (Hs & _).
    rewrite Hm in Hs. by apply map_eq_nil_iff in Hs. }
  rewrite app_nil_r. repeat split; assumption || reflexivity.
Qed.

(** The settings and the diagnostics of [validate] do not depend on the
    declared flow endpoint nor on the tag blocks. *)
Lemma validate_ignores env ds e f f' u p i t t' :
  validate env (mkRequest ds (mkModel e f u p i t))
  = validate env (mkRequest ds (mkModel e f' u p i t')).
Proof. reflexivity. Qed.

(** [strconv.ParseBool] succeeds on its twelve literals and on nothing
    else. *)
Lemma ParseBool_Ok_iff (str : string) :
  (exists b, strconv.ParseBool str = Ok b) <-> str ∈ bool_literals.
Proof.
  unfold strconv.ParseBool.
  change bool_literals
    with (["1"; "t"; "T"; "true"; "TRUE"; "True"]
          ++ ["0"; "f"; "F"; "false"; "FALSE"; "False"]).
  rewrite elem_of_app.
  case_bool_decide as H1; [split; eauto|].
  case_bool_decide as H2; [split; eauto|].
  split; [intros [b [=]] | tauto].
Qed.

Lemma length_pos_iff (str : string) :
  0 < String.length str <-> str <> EmptyString.
Proof. destruct str; simpl; split; (lia || congruence). Qed.

Lemma insecure_unparsable env :
  os.Getenv env "OPENNEBULA_INSECURE" <> EmptyString ->
  os.Getenv env "OPENNEBULA_INSECURE" ∉ bool_literals ->
  insecure_diags env = [insecure_parse_error] /\ env_insecure env = false.
Proof.
  intros Hne Hlit. unfold insecure_diags, env_insecure. cbv zeta.
  rewrite bool_decide_eq_true_2 by by apply length_pos_iff.
  destruct (strconv.ParseBool _) as [b|err] eqn:Hp; [|done].
  destruct Hlit. apply ParseBool_Ok_iff. eauto.
Qed.

Lemma insecure_parsable env :
  os.Getenv env "OPENNEBULA_INSECURE" = EmptyString
  \/ os.Getenv env "OPENNEBULA_INSECURE" ∈ bool_literals ->
  insecure_diags env = [].
Proof.
  intros Hok. unfold insecure_diags. cbv zeta.
  case_bool_decide as Hlen; [|done].
  destruct Hok as [He|Hin].
  - apply length_pos_iff in Hlen. done.
  - apply ParseBool_Ok_iff in Hin as [b ->]. done.
Qed.

(** The attribute paths of the diagnostics the checks add. *)
Lemma unknown_checks_paths config d :
  d ∈ unknown_checks config [] ->
  exists f, Path_of d = Some (path.Root (attribute f)).
Proof.
  intros Hin. destruct (unknown_checks_nil config) as (_ & Hp & _).
  assert (Path_of d ∈ map Path_of (unknown_checks config [])) as Hd
    by (apply list_elem_of_fmap; eauto).
  rewrite Hp in Hd. apply list_elem_of_fmap in Hd as (f & -> & _). eauto.
Qed.

Lemma missing_checks_paths r d :
  d ∈ missing_checks r [] ->
  Path_of d = Some (path.Root "endpoint")
  \/ Path_of d = Some (path.Root "username").
Proof.
  intros Hin. destruct (missing_checks_nil r) as (_ & Hp & _).
  assert (Path_of d ∈ map Path_of (missing_checks r [])) as Hd
    by (apply list_elem_of_fmap; eauto).
  rewrite Hp in Hd. apply list_elem_of_fmap in Hd as (f & -> & _).
  destruct f; auto.
Qed.

(** The loop over the tag blocks, started from any tag set and log. *)
Lemma foldl_tags_step blocks : forall tags log,
  (forall k,
      Elements (fst (foldl tags_step (tags, log) blocks)) !! k
      = match last_wins k blocks with
        | Some v => Some v
        | None => Elements tags !! k
        end)
  /\ snd (foldl tags_step (tags, log) blocks)
     = log ++ flat_map skipped_log blocks.
Proof.
  induction blocks as [|b blocks IH]; intros tags log.
  - simpl. by rewrite app_nil_r.
  - cbn [foldl last_wins flat_map].
    destruct b as [err|err|m]; cbn [tags_step ToTerraformValue As].
    + destruct (IH tags (log ++ [DebugToTerraformValueErr err])) as [Hk Hl].
      split.
      * intros k. rewrite Hk. by destruct (last_wins k blocks).
      * rewrite Hl. simpl. by rewrite <- app_assoc.
    + destruct (IH tags (log ++ [DebugAsErr err])) as [Hk Hl].
      split.
      * intros k. rewrite Hk. by destruct (last_wins k blocks).
      * rewrite Hl. simpl. by rewrite <- app_assoc.
    + destruct (IH (mkDefaultTags (m ∪ Elements tags)) log) as [Hk Hl].
      split; [|exact Hl].
      intros k. rewrite Hk. destruct (last_wins k blocks); [done|].
      simpl. rewrite lookup_union. by destruct (m !! k), (Elements tags !! k).
Qed.

Lemma foldl_tags_step_union blocks : forall tags log,
  Elements (fst (foldl tags_step (tags, log) blocks))
  = foldl merge_block (Elements tags) blocks.
Proof.
  induction blocks as [|b blocks IH]; intros tags log; [done|].
  cbn [foldl]. destruct b as [err|err|m];
    cbn [tags_step ToTerraformValue As merge_block]; by rewrite IH.
Qed.

Lemma aggregate_tags_spec blocks :
  (forall k, Elements (fst (aggregate_tags blocks)) !! k = last_wins k blocks)
  /\ snd (aggregate_tags blocks) = flat_map skipped_log blocks.
Proof.
  unfold aggregate_tags.
  destruct (foldl_tags_step blocks (mkDefaultTags ∅) []) as [Hk Hl].
  split; [|exact Hl].
  intros k. rewrite Hk. simpl. rewrite lookup_empty.
  by destruct (last_wins k blocks).
Qed.

End Blocks.

(** ** The bootstrap as a whole *)

Section Bootstrap.
Implicit Types (w : World) (req : ConfigureRequest) (ds : diag.Diagnostics)
  (r : Resolved).

Lemma HasError_AddError ds summary detail :
  diag.HasError (diag.AddError ds summary detail) = true.
Proof.
  unfold diag.AddError. rewrite HasError_Append. apply orb_true_r.
Qed.

(** A session is assigned exactly when the response holds no error. *)
Lemma Configure_session_iff w req :
  let out := resp (Configure w req) in
  (diag.HasError (Diagnostics out) = false <-> is_Some (DataSourceData out))
  /\ DataSourceData out = ResourceData out.
Proof.
  unfold Configure.
  destruct (validate (environ w) req) as [ds [r|]] eqn:Hv.
  - apply validate_Some in Hv as (_ & Hds & _).
    unfold connect.
    destruct (SystemVersion w _) as [versionStr|err]; simpl.
    + destruct (NewVersion w _) as [version|err]; simpl.
      * destruct (aggregate_tags _) as [tags taglog]. simpl.
        split; [|reflexivity]. split; [eauto | done].
      * rewrite HasError_AddError.
        split; [|reflexivity]. split; [done | by intros [? ?]].
    + rewrite HasError_AddError.
      split; [|reflexivity]. split; [done | by intros [? ?]].
  - simpl. split; [|reflexivity].
    assert (diag.HasError ds = true) as ->; [|split; [done | by intros [? ?]]].
    revert Hv. unfold validate. cbv zeta.
    destruct (diag.HasError (decode req)) eqn:H0; [congruence|].
    destruct (diag.HasError (unknown_checks _ _)) eqn:H1; [congruence|].
    destruct (resolve _ _ _) as [r ds1].
    destruct (diag.HasError (missing_checks _ _)) eqn:H2; congruence.
Qed.

(** C8. Whenever the diagnostics of [Configure] hold an error, whichever
    block added it (the decoding of the configuration, the unknown-value
    checks, the parsing of the boolean and the emptiness checks, the
    version query, the parsing of the version), neither
    [resp.DataSourceData] nor [resp.ResourceData] is assigned: no session
    is exposed next to an error diagnostic. *)
Theorem Configure_error_no_session w req :
  diag.HasError (Diagnostics (resp (Configure w req))) = true ->
  DataSourceData (resp (Configure w req)) = None
  /\ ResourceData (resp (Configure w req)) = None.
Proof.
  intros He.
  destruct (Configure_session_iff w req) as [[_ Hs] Heq].
  rewrite <- Heq.
  destruct (DataSourceData (resp (Configure w req))) as [cfg|] eqn:Hd;
    [|done].
  assert (diag.HasError (Diagnostics (resp (Configure w req))) = false) as Hno.
  { apply Configure_session_iff. rewrite Hd. eauto. }
  congruence.
Qed.

Lemma Configure_error_no_session_witness :
  let w := mkWorld ∅ remote_down parse_version in
  let req := declared_config (types.StringValue "https://a")
               types.StringNull (types.StringValue "u")
               (types.StringValue "p") types.BoolNull [] in
  diag.HasError (Diagnostics (resp (Configure w req))) = true
  /\ DataSourceData (resp (Configure w req)) = None
  /\ ResourceData (resp (Configure w req)) = None.
Proof.
  intros w req. split; [reflexivity|].
  apply (Configure_error_no_session w req). reflexivity.
Defined.

(** C7. Once the validation has passed, a failure of the version query,
    and a failure to parse the version it returned, each make [Configure]
    add one error diagnostic, whose detail is the text of the failure, and
    return at once: that diagnostic is the only error of the response, no
    session is assigned and nothing further is done. *)
Theorem version_failure_is_fatal w req ds r :
  validate (environ w) req = (ds, Some r) ->
  (forall err,
      SystemVersion w (new_client r) = Err err ->
      let d := diag.NewErrorDiagnostic "Failed to get OpenNebula release number"
                 err in
      Configure w req = returned (ds ++ [d])
      /\ diag.errors (Diagnostics (resp (Configure w req))) = [d])
  /\ (forall versionStr err,
      SystemVersion w (new_client r) = Ok versionStr ->
      NewVersion w versionStr = Err err ->
      let d := diag.NewErrorDiagnostic "Failed to parse OpenNebula version" err in
      Configure w req = returned (ds ++ [d])
      /\ diag.errors (Diagnostics (resp (Configure w req))) = [d]).
Proof.
  intros Hv. unfold Configure. rewrite Hv.
  apply validate_Some in Hv as (_ & Hds & _).
  unfold connect. split.
  - intros err ->. cbv zeta. rewrite (AddError_fresh _ _ _ Hds).
    split; [reflexivity|]. simpl.
    by rewrite errors_app, (errors_nil_of_no_error _ Hds).
  - intros versionStr err -> ->. cbv zeta. rewrite (AddError_fresh _ _ _ Hds).
    split; [reflexivity|]. simpl.
    by rewrite errors_app, (errors_nil_of_no_error _ Hds).
Qed.

Lemma version_failure_is_fatal_witness :
  let req := declared_config (types.StringValue "https://a")
               types.StringNull (types.StringValue "u")
               (types.StringValue "p") types.BoolNull [] in
  (Configure (mkWorld ∅ remote_down parse_version) req
   = returned [diag.NewErrorDiagnostic "Failed to get OpenNebula release number"
                 "connection refused"])
  /\ (Configure (mkWorld ∅ remote_garbled parse_version) req
      = returned [diag.NewErrorDiagnostic "Failed to parse OpenNebula version"
                    "Malformed version: six"]).
Proof.
  intros req.
  pose (r := mkResolved "https://a" "https://a" "u" "p" false).
  assert (validate ∅ req = ([], Some r)) as Hv by (vm_compute; reflexivity).
  split.
  - apply (version_failure_is_fatal
             (mkWorld ∅ remote_down parse_version) req [] r Hv).
    reflexivity.
  - apply (version_failure_is_fatal
             (mkWorld ∅ remote_garbled parse_version) req [] r Hv
          ) with (versionStr := "six"); reflexivity.
Defined.

(** C5. When a required setting (endpoint, username, password) is declared
    with a value that is not yet known, [Configure] assigns no session; and
    when the configuration was decoded without error, the errors of the
    response are exactly one per such setting, each scoped to the
    attribute of its setting, all of them added before the return. *)
Theorem unknown_required_reported w req :
  let config := Get_config req in
  let out := resp (Configure w req) in
  unknown_required config <> [] ->
  (DataSourceData out = None /\ ResourceData out = None)
  /\ (diag.HasError (Get_diags req) = false ->
      Diagnostics out = decode req ++ unknown_checks config []
      /\ map diag.Path_of (diag.errors (Diagnostics out))
         = map (fun f => Some (path.Root (attribute f)))
             (unknown_required config)
      /\ map diag.Summary (diag.errors (Diagnostics out))
         = map unknown_summary (unknown_required config)).
Proof.
  intros config out Hu. subst out. unfold Configure.
  rewrite validate_eq. cbv zeta. fold config.
  rewrite HasError_unknown_checks, HasError_decode.
  rewrite (bool_decide_eq_false_2 _ Hu). simpl.
  destruct (diag.HasError (Get_diags req)) eqn:H0; simpl.
  - split; [done|]. discriminate.
  - split; [done|]. intros _. split; [reflexivity|].
    rewrite <- HasError_decode in H0.
    rewrite errors_app, (errors_nil_of_no_error _ H0). simpl.
    destruct (unknown_checks_nil config) as (Hs & Hp & ->). done.
Qed.

Lemma unknown_required_reported_witness :
  let w := mkWorld ∅ remote_ok parse_version in
  let req := declared_config types.StringUnknown types.StringNull
               (types.StringValue "u") types.StringUnknown
               types.BoolNull [] in
  map diag.Path_of (diag.errors (Diagnostics (resp (Configure w req))))
  = [Some (path.Root "endpoint"); Some (path.Root "password")]
  /\ DataSourceData (resp (Configure w req)) = None.
Proof.
  intros w req.
  assert (unknown_required (Get_config req) <> []) as Hu by discriminate.
  destruct (unknown_required_reported w req Hu) as [[Hd _] Hr].
  split; [|exact Hd].
  destruct (Hr eq_refl) as (_ & Hp & _). exact Hp.
Defined.

(** C4. The emptiness checks do not stop at the first empty setting.  When
    the configuration was decoded without error and no required setting is
    unknown, and some required setting resolves to the empty string, the
    errors of the response are those of the parsing of
    [OPENNEBULA_INSECURE] followed by one error per empty required setting,
    all three checks having run; only then [Configure] returns, without a
    session. *)
Theorem missing_required_all_reported w req :
  let config := Get_config req in
  let r := resolved (environ w) config in
  let out := resp (Configure w req) in
  diag.HasError (Get_diags req) = false ->
  unknown_required config = [] ->
  empty_required r <> [] ->
  Diagnostics out
    = decode req ++ insecure_diags (environ w) ++ missing_checks r []
  /\ diag.errors (Diagnostics out)
    = insecure_diags (environ w) ++ missing_checks r []
  /\ map diag.Summary (missing_checks r [])
    = map missing_summary (empty_required r)
  /\ length (missing_checks r []) = length (empty_required r)
  /\ DataSourceData out = None /\ ResourceData out = None.
Proof.
  intros config r out H0 Hu Hm. subst out. unfold Configure.
  rewrite validate_eq. cbv zeta. fold config. fold r.
  rewrite HasError_unknown_checks, HasError_decode, H0, Hu. simpl.
  rewrite HasError_app, HasError_missing_checks.
  rewrite (bool_decide_eq_false_2 _ Hm), orb_true_r. simpl.
  destruct (missing_checks_nil r) as (Hs & _ & He).
  rewrite <- HasError_decode in H0.
  repeat split; try done.
  - rewrite !errors_app, (errors_nil_of_no_error _ H0), He. simpl.
    f_equal. destruct (insecure_diags_cases (environ w)) as [-> | ->]; done.
  - rewrite <- (length_map diag.Summary), Hs. apply length_map.
Qed.

Lemma missing_required_all_reported_witness :
  let w := mkWorld ∅ remote_ok parse_version in
  let req := declared_config types.StringNull types.StringNull
               (types.StringValue "u") types.StringNull
               types.BoolNull [] in
  map diag.Summary (diag.errors (Diagnostics (resp (Configure w req))))
  = ["Missing OpenNebula XML-RPC endpoint";
     "Missing OpenNebula account password"]
  /\ DataSourceData (resp (Configure w req)) = None.
Proof.
  intros w req.
  assert (empty_required (resolved (environ w) (Get_config req)) <> [])
    as Hm by (vm_compute; discriminate).
  destruct (missing_required_all_reported w req eq_refl eq_refl Hm)
    as (_ & He & _ & _ & Hd & _).
  split; [|exact Hd]. rewrite He. vm_compute. reflexivity.
Defined.

(** C6. When [OPENNEBULA_INSECURE] is set to something other than a
    literal [strconv.ParseBool] accepts, the parse adds an error scoped to
    the attribute [insecure] and the function goes on: [insecure] is
    [false] unless the declared value is not null, the emptiness checks
    still run and their errors follow that of the parse, and [Configure]
    returns only at the check after them, without a session. *)
Theorem insecure_unparsable_reported w req :
  let config := Get_config req in
  let env := environ w in
  let r := resolved env config in
  let out := resp (Configure w req) in
  diag.HasError (Get_diags req) = false ->
  unknown_required config = [] ->
  os.Getenv env "OPENNEBULA_INSECURE" <> EmptyString ->
  os.Getenv env "OPENNEBULA_INSECURE" ∉ bool_literals ->
  resolve env config (decode req) = (r, decode req ++ [insecure_parse_error])
  /\ diag.is_error insecure_parse_error = true
  /\ diag.Path_of insecure_parse_error = Some (path.Root "insecure")
  /\ insecure r = (if types.Bool_IsNull (Insecure config) then false
                   else types.ValueBool (Insecure config))
  /\ Diagnostics out
     = decode req ++ [insecure_parse_error] ++ missing_checks r []
  /\ DataSourceData out = None /\ ResourceData out = None.
Proof.
  intros config env r out H0 Hu Hne Hlit. subst out.
  destruct (insecure_unparsable env Hne Hlit) as [Hi Hf].
  rewrite <- HasError_decode in H0.
  split.
  { rewrite (surjective_pairing (resolve env config (decode req))).
    by rewrite resolve_fst, (resolve_snd _ _ _ H0), Hi. }
  do 2 (split; [reflexivity|]).
  split.
  { unfold r. rewrite resolved_eq. simpl. rewrite Hf. reflexivity. }
  unfold Configure. rewrite validate_eq. cbv zeta.
  fold config. fold env. fold r.
  rewrite HasError_unknown_checks, H0, Hu, Hi. simpl. done.
Qed.

Lemma insecure_unparsable_reported_witness :
  let w := mkWorld {[ "OPENNEBULA_INSECURE" := "yes" ]}
             remote_ok parse_version in
  let req := declared_config (types.StringValue "https://a")
               types.StringNull (types.StringValue "u")
               (types.StringValue "p") types.BoolNull [] in
  Diagnostics (resp (Configure w req)) = [insecure_parse_error]
  /\ insecure (resolved (environ w) (Get_config req)) = false
  /\ DataSourceData (resp (Configure w req)) = None.
Proof.
  intros w req.
  assert (os.Getenv (environ w) "OPENNEBULA_INSECURE" <> EmptyString)
    as Hne by (vm_compute; discriminate).
  assert (os.Getenv (environ w) "OPENNEBULA_INSECURE" ∉ bool_literals)
    as Hlit by (apply (bool_decide_unpack _); vm_compute; exact I).
  destruct (insecure_unparsable_reported w req eq_refl eq_refl Hne Hlit)
    as (_ & _ & _ & Hi & Hd & Hs & _).
  split; [|split; [exact Hi | exact Hs]].
  rewrite Hd. vm_compute. reflexivity.
Defined.

(** Where a diagnostic of the response comes from. *)
Lemma Configure_diagnostics_origin w req d :
  d ∈ Diagnostics (resp (Configure w req)) ->
  d ∈ Get_diags req
  \/ d ∈ unknown_checks (Get_config req) []
  \/ d ∈ insecure_diags (environ w)
  \/ d ∈ missing_checks (resolved (environ w) (Get_config req)) []
  \/ diag.Path_of d = None.
Proof.
  assert (forall ds0, d ∈ decode req ++ ds0 -> d ∈ Get_diags req \/ d ∈ ds0)
    as Hdec.
  { intros ds0 [Hin|Hin]%elem_of_app; [left|by right].
    apply elem_of_Append in Hin as [Hin|Hin]; [|done].
    by apply elem_of_nil in Hin. }
  unfold Configure.
  destruct (validate (environ w) req) as [ds [r|]] eqn:Hv.
  - apply validate_Some in Hv as (-> & Hds & _).
    assert (forall summary detail,
              d ∈ diag.AddError (decode req) summary detail ->
              d ∈ Get_diags req \/ diag.Path_of d = None) as Hadd.
    { intros summary detail Hin. rewrite (AddError_fresh _ _ _ Hds) in Hin.
      apply Hdec in Hin as [Hin|Hin]; [by left|right].
      by apply list_elem_of_singleton in Hin as ->. }
    unfold connect.
    destruct (SystemVersion w _) as [versionStr|err]; simpl.
    + destruct (NewVersion w _) as [version|err]; simpl.
      * destruct (aggregate_tags _) as [tags taglog]. simpl. intros Hin.
        left. rewrite <- (app_nil_r (decode req)) in Hin.
        apply Hdec in Hin as [Hin|Hin]; [done|by apply elem_of_nil in Hin].
      * intros Hin. apply Hadd in Hin. tauto.
    + intros Hin. apply Hadd in Hin. tauto.
  - simpl. revert Hv. rewrite validate_eq. cbv zeta.
    destruct (diag.HasError (decode req)).
    { intros [= <-] Hin. left. rewrite <- (app_nil_r (decode req)) in Hin.
      apply Hdec in Hin as [Hin|Hin]; [done|by apply elem_of_nil in Hin]. }
    destruct (diag.HasError (unknown_checks _ _)).
    { intros [= <-] Hin. apply Hdec in Hin. tauto. }
    destruct (diag.HasError (_ ++ _)); [|discriminate].
    intros [= <-] Hin. apply Hdec in Hin as [Hin|Hin]; [tauto|].
    apply elem_of_app in Hin. tauto.
Qed.

(** C10. A declared [insecure] whose value is not yet known is not
    reported: the unknown-value checks do not look at it, and [Configure]
    does with it exactly what it does with a declared [false].  The
    resolved flag is [false] whatever [OPENNEBULA_INSECURE] holds, also
    when it parses to [true]; and when the variable is unset, empty or
    parses, every diagnostic of the response that is scoped to [insecure]
    was already among those of the decoding. *)
Theorem insecure_unknown_is_false w ds e f u p t :
  let config := mkModel e f u p types.BoolUnknown t in
  let req := mkRequest ds config in
  Configure w req
    = Configure w (mkRequest ds (mkModel e f u p (types.BoolValue false) t))
  /\ (forall ds', unknown_checks config ds'
                  = unknown_checks (mkModel e f u p types.BoolNull t) ds')
  /\ insecure (resolved (environ w) config) = false
  /\ (os.Getenv (environ w) "OPENNEBULA_INSECURE" = EmptyString
       \/ os.Getenv (environ w) "OPENNEBULA_INSECURE" ∈ bool_literals ->
       forall d,
         d ∈ Diagnostics (resp (Configure w req)) ->
         diag.Path_of d = Some (path.Root "insecure") ->
         d ∈ ds).
Proof.
  intros config req. split; [|split; [|split]].
  - unfold Configure.
    assert (validate (environ w) req
            = validate (environ w)
                (mkRequest ds (mkModel e f u p (types.BoolValue false) t)))
      as ->; [|reflexivity].
    unfold validate. cbv zeta. simpl.
    destruct (diag.HasError (decode _)); [reflexivity|].
    destruct (diag.HasError (unknown_checks _ _)); [reflexivity|].
    unfold resolve. simpl.
    destruct (bool_decide _); [destruct (strconv.ParseBool _)|]; reflexivity.
  - reflexivity.
  - unfold config. rewrite resolved_eq. reflexivity.
  - intros Hok d Hin Hpath.
    apply Configure_diagnostics_origin in Hin
      as [Hin|[Hin|[Hin|[Hin|Hin]]]].
    + exact Hin.
    + apply unknown_checks_paths in Hin as [[] Hf]; rewrite Hf in Hpath;
        discriminate.
    + rewrite (insecure_parsable _ Hok) in Hin. by apply elem_of_nil in Hin.
    + apply missing_checks_paths in Hin as [Hf|Hf]; rewrite Hf in Hpath;
        discriminate.
    + rewrite Hin in Hpath. discriminate.
Qed.

Lemma insecure_unknown_is_false_witness :
  let w := mkWorld {[ "OPENNEBULA_INSECURE" := "true" ]}
             remote_ok parse_version in
  let config := mkModel (types.StringValue "https://a") types.StringNull
                  (types.StringValue "u") (types.StringValue "p")
                  types.BoolUnknown types.SetNull in
  env_insecure (environ w) = true
  /\ insecure (resolved (environ w) config) = false
  /\ forall d,
       d ∈ Diagnostics (resp (Configure w (mkRequest [] config))) ->
       diag.Path_of d = Some (path.Root "insecure") -> d ∈ [].
Proof.
  intros w config.
  destruct (insecure_unknown_is_false w []
              (types.StringValue "https://a") types.StringNull
              (types.StringValue "u") (types.StringValue "p") types.SetNull)
    as (_ & _ & Hi & Hd).
  split; [vm_compute; reflexivity|]. split; [exact Hi|].
  apply Hd. right. apply (bool_decide_unpack _). vm_compute. exact I.
Defined.

(** C2. The tag set aggregated from the blocks, taken in declared order,
    has under each name the value of the last block that decodes and has
    that name, so a later block replaces an earlier one's entry only under
    the same name.  A block that does not convert or does not decode is
    skipped after one log line and changes nothing else: the diagnostics
    of [Configure] are those it has without any block, and whenever it
    assigns a session without the blocks it assigns the same session,
    with the aggregated tags, with them. *)
Theorem default_tags_last_wins w ds e f u p i blocks :
  let req := mkRequest ds (mkModel e f u p i (types.SetValue blocks)) in
  let req0 := mkRequest ds (mkModel e f u p i types.SetNull) in
  let tags := fst (aggregate_tags blocks) in
  Elements tags = foldl merge_block ∅ blocks
  /\ (forall k, Elements tags !! k = last_wins k blocks)
  /\ snd (aggregate_tags blocks) = flat_map skipped_log blocks
  /\ Diagnostics (resp (Configure w req))
     = Diagnostics (resp (Configure w req0))
  /\ (forall cfg0,
        DataSourceData (resp (Configure w req0)) = Some cfg0 ->
        let cfg :=
          config.mkProvider (config.OneVersion cfg0) (config.Mutex cfg0)
            (config.Controller cfg0) (Elements tags) in
        DataSourceData (resp (Configure w req)) = Some cfg
        /\ ResourceData (resp (Configure w req)) = Some cfg
        /\ exists versionStr,
            log (Configure w req)
            = [InfoVersion versionStr] ++ flat_map skipped_log blocks
              ++ [DebugDefaultTags (Elements tags)]).
Proof.
  intros req req0 tags.
  destruct (aggregate_tags_spec blocks) as [Hk Hl].
  split; [apply foldl_tags_step_union|].
  do 2 (split; [assumption|]).
  unfold Configure.
  change (validate (environ w) req) with (validate (environ w) req0).
  destruct (validate (environ w) req0) as [ds1 [r|]]; [|by split].
  unfold connect. simpl.
  destruct (SystemVersion w _) as [versionStr|err]; [|by split].
  destruct (NewVersion w _) as [version|err]; [|by split].
  fold tags. rewrite <- Hl. clear Hk Hl.
  destruct (aggregate_tags blocks) as [tags' taglog].
  simpl in tags. subst tags. simpl. split; [reflexivity|].
  intros cfg0 [= <-]. simpl.
  case_bool_decide as Hsize; [by eauto|].
  assert (Elements tags' = ∅) as ->
    by (apply map_size_empty_iff; lia).
  by eauto.
Qed.

Lemma default_tags_last_wins_witness :
  let w := mkWorld ∅ remote_ok parse_version in
  let blocks := [BlockTags {[ "a" := "1"; "b" := "2" ]};
                 BlockNotDecodable "tags: not a map";
                 BlockTags {[ "b" := "3" ]}] in
  let req := declared_config (types.StringValue "https://a")
               types.StringNull (types.StringValue "u")
               (types.StringValue "p") types.BoolNull blocks in
  Diagnostics (resp (Configure w req)) = []
  /\ exists cfg,
      DataSourceData (resp (Configure w req)) = Some cfg
      /\ config.DefaultTags cfg = {[ "a" := "1"; "b" := "3" ]}.
Proof.
  intros w blocks req.
  destruct (default_tags_last_wins w []
              (types.StringValue "https://a") types.StringNull
              (types.StringValue "u") (types.StringValue "p")
              types.BoolNull blocks) as (_ & _ & _ & Hd & Hs).
  split; [exact Hd|].
  destruct (Hs _ eq_refl) as [Hc _].
  eexists. split; [exact Hc|]. vm_compute. reflexivity.
Defined.

(** The precedence, setting by setting.  A required setting whose declared
    value is known or null resolves to the declared value, else to the
    environment variable, which reads as empty when unset. *)
Lemma resolved_required_precedence env config f :
  types.String_IsUnknown (declared config f) = false ->
  setting (resolved env config) f
  = precedence (declared config f) (os.Getenv env (variable f)).
Proof.
  rewrite resolved_eq. destruct f; simpl;
    [destruct (Endpoint config) | destruct (Username config)
     | destruct (Password config)]; simpl; (reflexivity || discriminate).
Qed.

Lemma resolved_insecure_precedence env config :
  types.Bool_IsUnknown (Insecure config) = false ->
  insecure (resolved env config)
  = match Insecure config with
    | types.BoolValue v => v
    | _ => env_insecure env
    end.
Proof.
  rewrite resolved_eq.
  destruct (Insecure config); simpl; (reflexivity || discriminate).
Qed.

(** The flow endpoint is resolved from the environment and from the
    declared [endpoint]; the declared [flow_endpoint] is not read. *)
Lemma resolved_flowEndpoint env config :
  flowEndpoint (resolved env config)
  = if types.String_IsNull (Endpoint config)
    then os.Getenv env "OPENNEBULA_FLOW_ENDPOINT"
    else types.ValueString (Endpoint config).
Proof. rewrite resolved_eq. reflexivity. Qed.

Lemma resolved_ignores_FlowEndpoint env e f f' u p i t :
  resolved env (mkModel e f u p i t) = resolved env (mkModel e f' u p i t).
Proof. reflexivity. Qed.

(** C1, at the input where [Configure] departs from it.  With [endpoint]
    and [flow_endpoint] both declared, and different, the resolved flow
    endpoint is the declared [endpoint], not the declared [flow_endpoint],
    and the flow client of the session is built for that address. *)
Theorem flow_endpoint_takes_declared_endpoint :
  let w := mkWorld ∅ remote_ok parse_version in
  let req := declared_config (types.StringValue "https://one.example/RPC2")
               (types.StringValue "https://flow.example")
               (types.StringValue "u") (types.StringValue "p")
               types.BoolNull [] in
  let config := Get_config req in
  precedence (FlowEndpoint config)
    (os.Getenv (environ w) "OPENNEBULA_FLOW_ENDPOINT")
  = "https://flow.example"
  /\ flowEndpoint (resolved (environ w) config) = "https://one.example/RPC2"
  /\ Diagnostics (resp (Configure w req)) = []
  /\ exists cfg,
      DataSourceData (resp (Configure w req)) = Some cfg
      /\ config.Controller cfg
         = goca.NewGenericController
             (goca.NewClient "u" "p" "https://one.example/RPC2" false)
             (goca.NewDefaultFlowClient "u" "p" "https://one.example/RPC2").
Proof.
  intros w req config. repeat split.
  eexists. split; vm_compute; reflexivity.
Qed.

(** No diagnostic of the emptiness checks is scoped to [password]. *)
Lemma missing_checks_never_password r d :
  d ∈ missing_checks r [] ->
  diag.Path_of d <> Some (path.Root (attribute FPassword)).
Proof.
  intros [Hp|Hp]%missing_checks_paths; rewrite Hp; discriminate.
Qed.

(** C3, at the input where [Configure] departs from it.  With only the
    password resolving to the empty string, the one diagnostic of the
    response is the error for the missing password, and it is scoped to
    the attribute [endpoint], not [password]; its detail names the
    variable [OPENNEBULA_PASSWORD] and, as the attribute to set in the
    configuration, [endpoint]. *)
Theorem missing_password_scoped_to_endpoint :
  let w := mkWorld ∅ remote_ok parse_version in
  let req := declared_config (types.StringValue "https://a")
               types.StringNull (types.StringValue "u") types.StringNull
               types.BoolNull [] in
  empty_required (resolved (environ w) (Get_config req)) = [FPassword]
  /\ exists d,
      Diagnostics (resp (Configure w req)) = [d]
      /\ diag.Summary d = missing_summary FPassword
      /\ diag.Path_of d = Some (path.Root (attribute FEndpoint))
      /\ diag.Path_of d <> Some (path.Root (attribute FPassword))
      /\ is_substring (variable FPassword) (diag.Detail d) = true
      /\ is_substring "Set the endpoint value in the configuration"
           (diag.Detail d) = true
      /\ is_substring "Set the password value in the configuration"
           (diag.Detail d) = false.
Proof.
  intros w req. split; [vm_compute; reflexivity|].
  eexists. split; [vm_compute; reflexivity|].
  repeat split; try (vm_compute; reflexivity). discriminate.
Qed.

(** The scenarios of the specification.  In the first, the session has a
    flow client although no flow endpoint is declared or set: the flow
    endpoint takes the declared [endpoint]. *)
Example end_to_end :
  Configure (mkWorld ∅ remote_ok parse_version)
    (declared_config (types.StringValue "https://a") types.StringNull
       (types.StringValue "u") (types.StringValue "p") types.BoolNull [])
  = mkOutcome
      (let cfg :=
         config.mkProvider
           (ver.mkVersion [6; 8; 0]%Z EmptyString EmptyString "6.8.0")
           utils.NewMutexKV
           (goca.NewGenericController
              (goca.NewClient "u" "p" "https://a" false)
              (goca.NewDefaultFlowClient "u" "p" "https://a"))
           ∅ in
       mkResponse [] (Some cfg) (Some cfg))
      [InfoVersion "6.8.0"; DebugDefaultTags ∅].
Proof. vm_compute. reflexivity. Qed.

Example tags_last_wins :
  Elements (fst (aggregate_tags [BlockTags {[ "a" := "1"; "b" := "2" ]};
                                 BlockTags {[ "b" := "3" ]}]))
  = {[ "a" := "1"; "b" := "3" ]}.
Proof. vm_compute. reflexivity. Qed.

Example tags_malformed_skipped :
  aggregate_tags [BlockNotDecodable "malformed"; BlockTags {[ "x" := "9" ]}]
  = (mkDefaultTags {[ "x" := "9" ]}, [DebugAsErr "malformed"]).
Proof. vm_compute. reflexivity. Qed.

End Bootstrap.

(** ** When [Configure] assigns a session, and what the session holds *)

Section Session.
Implicit Types (w : World) (req : ConfigureRequest) (ds : diag.Diagnostics)
  (r : Resolved) (env : os.Environ).

Lemma insecure_diags_nil_iff env :
  insecure_diags env = []
  <-> (os.Getenv env "OPENNEBULA_INSECURE" = EmptyString
       \/ os.Getenv env "OPENNEBULA_INSECURE" ∈ bool_literals).
Proof.
  split; [|apply insecure_parsable].
  intros Hnil.
  destruct (decide (os.Getenv env "OPENNEBULA_INSECURE" = EmptyString))
    as [He|Hne]; [by left|].
  destruct (decide (os.Getenv env "OPENNEBULA_INSECURE" ∈ bool_literals))
    as [Hin|Hnin]; [by right|].
  destruct (insecure_unparsable env Hne Hnin) as [Hi _]. congruence.
Qed.

Lemma missing_checks_none r :
  empty_required r = [] -> missing_checks r [] = [].
Proof.
  intros Hm. destruct (missing_checks_nil r) as (Hs & _).
  rewrite Hm in Hs. by apply map_eq_nil_iff in Hs.
Qed.

Lemma validate_pass env req :
  checks_pass env req ->
  validate env req = (decode req, Some (resolved env (Get_config req))).
Proof.
  intros (H0 & Hu & Hi & Hm). rewrite validate_eq. cbv zeta.
  rewrite HasError_decode, H0, HasError_unknown_checks, Hu. simpl.
  rewrite (insecure_parsable _ Hi), (missing_checks_none _ Hm). simpl.
  by rewrite app_nil_r.
Qed.

Lemma validate_Some_checks env req ds r :
  validate env req = (ds, Some r) ->
  checks_pass env req /\ ds = decode req
  /\ r = resolved env (Get_config req).
Proof.
  intros (-> & Hds & -> & Hu & Hi & Hm)%validate_Some.
  split; [|by split]. rewrite HasError_decode in Hds.
  repeat split; try assumption. by apply insecure_diags_nil_iff.
Qed.

Lemma validate_None env req ds :
  validate env req = (ds, None) ->
  diag.HasError ds = true /\ ~ checks_pass env req.
Proof.
  intros Hv. split.
  - revert Hv. unfold validate. cbv zeta.
    destruct (diag.HasError (decode req)) eqn:H0; [congruence|].
    destruct (diag.HasError (unknown_checks _ _)) eqn:H1; [congruence|].
    destruct (resolve _ _ _) as [r ds1].
    destruct (diag.HasError (missing_checks _ _)) eqn:H2; congruence.
  - intros Hp. rewrite (validate_pass _ _ Hp) in Hv. discriminate.
Qed.

(** A session, when there is one, in full. *)
Lemma Configure_session w req cfg :
  DataSourceData (resp (Configure w req)) = Some cfg ->
  let r := resolved (environ w) (Get_config req) in
  checks_pass (environ w) req
  /\ Diagnostics (resp (Configure w req)) = decode req
  /\ ResourceData (resp (Configure w req)) = Some cfg
  /\ exists versionStr version,
      SystemVersion w (new_client r) = Ok versionStr
      /\ NewVersion w versionStr = Ok version
      /\ cfg = config.mkProvider version utils.NewMutexKV
                 (new_controller r (new_client r))
                 (Elements (fst (aggregate_tags
                                   (types.Elements
                                      (DefaultTags_ (Get_config req)))))).
Proof.
  unfold Configure.
  destruct (validate (environ w) req) as [ds [r|]] eqn:Hv; [|discriminate].
  apply validate_Some_checks in Hv as (Hp & -> & ->).
  unfold connect.
  destruct (SystemVersion w _) as [versionStr|err]; [|discriminate].
  destruct (NewVersion w _) as [version|err] eqn:Hn; [|discriminate].
  destruct (aggregate_tags _) as [tags taglog]. simpl.
  intros [= <-]. repeat split; try assumption; try apply Hp.
  exists versionStr, version. repeat split; [assumption|].
  case_bool_decide as Hsize; [reflexivity|].
  f_equal. symmetry. apply map_size_empty_iff. lia.
Qed.

Lemma unknown_required_none config f :
  unknown_required config = [] ->
  types.String_IsUnknown (declared config f) = false.
Proof.
  unfold unknown_required. simpl.
  destruct (types.String_IsUnknown (Endpoint config)) eqn:He;
    [discriminate|].
  destruct (types.String_IsUnknown (Username config)) eqn:Hu;
    [discriminate|].
  destruct (types.String_IsUnknown (Password config)) eqn:Hp;
    [discriminate|].
  by destruct f.
Qed.

Lemma empty_required_none r f :
  empty_required r = [] -> setting r f <> EmptyString.
Proof.
  unfold empty_required. simpl.
  repeat case_bool_decide; try discriminate. by destruct f.
Qed.

Lemma controller_client_new r c :
  controller_client (new_controller r c) = c.
Proof. unfold new_controller. by case_bool_decide. Qed.

Lemma env_insecure_eq env :
  env_insecure env
  = bool_decide (os.Getenv env "OPENNEBULA_INSECURE" ∈ true_literals).
Proof.
  unfold env_insecure, strconv.ParseBool, true_literals. cbv zeta.
  case_bool_decide as Hlen.
  - repeat case_bool_decide; done.
  - assert (os.Getenv env "OPENNEBULA_INSECURE" = EmptyString) as ->.
    { destruct (os.Getenv env _); [done|]. simpl in Hlen. lia. }
    symmetry. apply bool_decide_eq_false_2.
    apply (bool_decide_unpack _). vm_compute. exact I.
Qed.

(** X1. [Configure] assigns a session exactly when the decoding reported
    no error, no required setting is unknown, [OPENNEBULA_INSECURE] is
    unset, empty or a boolean literal, no required setting resolves to the
    empty string, the version query made through the client of the
    resolved settings succeeds, and its answer parses. *)
Theorem session_iff_checks_and_version w req :
  let r := resolved (environ w) (Get_config req) in
  is_Some (DataSourceData (resp (Configure w req)))
  <-> checks_pass (environ w) req
      /\ exists versionStr version,
          SystemVersion w (new_client r) = Ok versionStr
          /\ NewVersion w versionStr = Ok version.
Proof.
  intros r. split.
  - intros [cfg Hc].
    destruct (Configure_session w req cfg Hc)
      as (Hp & _ & _ & versionStr & version & Hs & Hn & _).
    split; [assumption|]. by exists versionStr, version.
  - intros (Hp & versionStr & version & Hs & Hn).
    unfold Configure. rewrite (validate_pass _ _ Hp). unfold connect.
    fold r. rewrite Hs, Hn.
    destruct (aggregate_tags _) as [tags taglog]. simpl. eauto.
Qed.

Lemma session_iff_checks_and_version_witness :
  let w := mkWorld {[ "OPENNEBULA_ENDPOINT" := "https://a";
                      "OPENNEBULA_USERNAME" := "u";
                      "OPENNEBULA_PASSWORD" := "p";
                      "OPENNEBULA_INSECURE" := "T" ]}
             remote_ok parse_version in
  let req := declared_config types.StringNull types.StringNull
               types.StringNull types.StringNull types.BoolNull [] in
  checks_pass (environ w) req
  /\ is_Some (DataSourceData (resp (Configure w req))).
Proof.
  intros w req.
  assert (checks_pass (environ w) req) as Hp.
  { repeat split; try (vm_compute; reflexivity).
    right. apply (bool_decide_unpack _). vm_compute. exact I. }
  split; [exact Hp|].
  apply (session_iff_checks_and_version w req). split; [exact Hp|].
  exists "6.8.0", (ver.mkVersion [6; 8; 0]%Z EmptyString EmptyString "6.8.0").
  split; vm_compute; reflexivity.
Defined.

(** X2. In a session, the client was made with the required settings as
    the precedence gives them, the declared value when there is one and
    the environment variable otherwise, and none of the three is empty. *)
Theorem session_client_settings w req cfg f :
  DataSourceData (resp (Configure w req)) = Some cfg ->
  let c := controller_client (config.Controller cfg) in
  client_setting c f
  = precedence (declared (Get_config req) f)
      (os.Getenv (environ w) (variable f))
  /\ client_setting c f <> EmptyString.
Proof.
  intros Hc.
  destruct (Configure_session w req cfg Hc)
    as ((_ & Hu & _ & Hm) & _ & _ & versionStr & version & _ & _ & ->).
  cbv zeta. cbn [config.Controller]. rewrite controller_client_new.
  assert (client_setting
            (new_client (resolved (environ w) (Get_config req))) f
          = setting (resolved (environ w) (Get_config req)) f) as ->
    by by destruct f.
  split; [|by apply empty_required_none].
  apply resolved_required_precedence. by apply unknown_required_none.
Qed.

Lemma session_client_settings_witness :
  let w := mkWorld {[ "OPENNEBULA_ENDPOINT" := "https://env";
                      "OPENNEBULA_PASSWORD" := "secret" ]}
             remote_ok parse_version in
  let req := declared_config (types.StringValue "https://a")
               types.StringNull (types.StringValue "u") types.StringNull
               types.BoolNull [] in
  exists cfg,
    DataSourceData (resp (Configure w req)) = Some cfg
    /\ goca.client_endpoint (controller_client (config.Controller cfg))
       = "https://a"
    /\ goca.client_password (controller_client (config.Controller cfg))
       = "secret".
Proof.
  intros w req.
  destruct (DataSourceData (resp (Configure w req))) as [cfg|] eqn:Hc;
    [|vm_compute in Hc; discriminate].
  exists cfg. split; [reflexivity|]. split.
  - apply (session_client_settings w req cfg FEndpoint Hc).
  - apply (session_client_settings w req cfg FPassword Hc).
Defined.

(** X3. In a session, certificate verification is skipped exactly when
    [insecure] is declared [true], or is null while [OPENNEBULA_INSECURE]
    is one of the six literals that read as true; a declared [insecure]
    whose value is unknown counts as [false]. *)
Theorem session_skips_verification w req cfg :
  DataSourceData (resp (Configure w req)) = Some cfg ->
  goca.InsecureSkipVerify (controller_client (config.Controller cfg))
  = match Insecure (Get_config req) with
    | types.BoolValue v => v
    | types.BoolUnknown => false
    | types.BoolNull =>
        bool_decide
          (os.Getenv (environ w) "OPENNEBULA_INSECURE" ∈ true_literals)
    end.
Proof.
  intros Hc.
  destruct (Configure_session w req cfg Hc)
    as (_ & _ & _ & versionStr & version & _ & _ & ->).
  cbn [config.Controller]. rewrite controller_client_new.
  unfold new_client. cbn [goca.InsecureSkipVerify].
  rewrite resolved_eq. cbn [insecure]. rewrite env_insecure_eq.
  by destruct (Insecure (Get_config req)).
Qed.

Lemma session_skips_verification_witness :
  let w := mkWorld {[ "OPENNEBULA_INSECURE" := "TRUE" ]}
             remote_ok parse_version in
  let req := declared_config (types.StringValue "https://a")
               types.StringNull (types.StringValue "u")
               (types.StringValue "p") types.BoolNull [] in
  exists cfg,
    DataSourceData (resp (Configure w req)) = Some cfg
    /\ goca.InsecureSkipVerify (controller_client (config.Controller cfg))
       = true.
Proof.
  intros w req.
  destruct (DataSourceData (resp (Configure w req))) as [cfg|] eqn:Hc;
    [|vm_compute in Hc; discriminate].
  exists cfg. split; [reflexivity|].
  rewrite (session_skips_verification w req cfg Hc). vm_compute. reflexivity.
Defined.

(** X4. In a session, the controller has a flow client exactly when the
    resolved flow endpoint is not empty, and the flow client then has
    that endpoint and the user and password of the main client. *)
Theorem session_flow_client w req cfg :
  DataSourceData (resp (Configure w req)) = Some cfg ->
  let r := resolved (environ w) (Get_config req) in
  let c := controller_client (config.Controller cfg) in
  (controller_flow (config.Controller cfg) = None
   <-> flowEndpoint r = EmptyString)
  /\ forall fc,
      controller_flow (config.Controller cfg) = Some fc ->
      goca.flow_endpoint fc = flowEndpoint r
      /\ goca.flow_endpoint fc <> EmptyString
      /\ goca.flow_user fc = goca.client_user c
      /\ goca.flow_password fc = goca.client_password c.
Proof.
  intros Hc.
  destruct (Configure_session w req cfg Hc)
    as (_ & _ & _ & versionStr & version & _ & _ & ->).
  cbv zeta. cbn [config.Controller]. rewrite controller_client_new.
  unfold new_controller. case_bool_decide as Hlen; simpl.
  - apply length_pos_iff in Hlen. split; [split; [discriminate|done]|].
    by intros fc [= <-].
  - assert (flowEndpoint (resolved (environ w) (Get_config req))
            = EmptyString) as Hf.
    { destruct (flowEndpoint _); [done|]. simpl in Hlen. lia. }
    split; [done|]. discriminate.
Qed.

Lemma session_flow_client_witness :
  let w := mkWorld {[ "OPENNEBULA_ENDPOINT" := "https://a";
                      "OPENNEBULA_FLOW_ENDPOINT" := "https://flow" ]}
             remote_ok parse_version in
  let req := declared_config types.StringNull types.StringNull
               (types.StringValue "u") (types.StringValue "p")
               types.BoolNull [] in
  exists cfg,
    DataSourceData (resp (Configure w req)) = Some cfg
    /\ controller_flow (config.Controller cfg)
       = Some (goca.NewDefaultFlowClient "u" "p" "https://flow").
Proof.
  intros w req.
  destruct (DataSourceData (resp (Configure w req))) as [cfg|] eqn:Hc;
    [|vm_compute in Hc; discriminate].
  exists cfg. split; [reflexivity|].
  destruct (session_flow_client w req cfg Hc) as [Hnone Hsome].
  destruct (controller_flow (config.Controller cfg)) as [fc|] eqn:Hfc.
  - destruct (Hsome fc eq_refl) as (He & _ & Hu & Hp).
    destruct fc as [fu fp fe]. simpl in *. subst fe fu fp.
    vm_compute in Hc. injection Hc as <-. reflexivity.
  - exfalso. destruct Hnone as [Hn _]. specialize (Hn eq_refl).
    vm_compute in Hn. discriminate.
Defined.

Lemma insecure_diags_errors env :
  diag.errors (insecure_diags env) = insecure_diags env
  /\ length (insecure_diags env) <= 1.
Proof.
  destruct (insecure_diags_cases env) as [-> | ->]; split; simpl;
    (reflexivity || lia).
Qed.

Lemma checks_length config r :
  length (unknown_checks config []) <= 3
  /\ length (missing_checks r []) <= 3.
Proof.
  destruct (unknown_checks_nil config) as (Hu & _).
  destruct (missing_checks_nil r) as (Hm & _).
  apply (f_equal length) in Hu, Hm. rewrite !length_map in Hu, Hm.
  rewrite Hu, Hm. unfold unknown_required, empty_required.
  split; etransitivity; try apply List.filter_length_le; simpl; lia.
Qed.

(** What [validate] adds to the diagnostics of the decoding. *)
Lemma validate_added env req :
  exists added,
    fst (validate env req) = decode req ++ added
    /\ diag.errors added = added
    /\ length added <= 4
    /\ (is_Some (snd (validate env req)) -> added = []).
Proof.
  rewrite validate_eq. cbv zeta.
  destruct (checks_length (Get_config req) (resolved env (Get_config req)))
    as [Hlu Hlm].
  destruct (insecure_diags_errors env) as [Hie Hil].
  destruct (diag.HasError (decode req)).
  { exists []. rewrite app_nil_r. simpl.
    split; [reflexivity|]. split; [reflexivity|]. split; [lia|done]. }
  destruct (diag.HasError (unknown_checks _ _)).
  { exists (unknown_checks (Get_config req) []). simpl.
    split; [reflexivity|]. split; [apply unknown_checks_nil|].
    split; [lia|]. by intros [? ?]. }
  exists (insecure_diags env
          ++ missing_checks (resolved env (Get_config req)) []).
  assert (diag.errors
            (insecure_diags env
             ++ missing_checks (resolved env (Get_config req)) [])
          = insecure_diags env
            ++ missing_checks (resolved env (Get_config req)) []) as He.
  { rewrite errors_app, Hie. f_equal. apply missing_checks_nil. }
  destruct (diag.HasError (_ ++ _)) eqn:Hh; simpl.
  - split; [reflexivity|]. split; [assumption|].
    split; [rewrite length_app; lia|]. by intros [? ?].
  - split; [reflexivity|]. split; [assumption|].
    split; [rewrite length_app; lia|].
    intros _. rewrite (errors_all_HasError _ He) in Hh.
    apply negb_false_iff, bool_decide_eq_true_1 in Hh. exact Hh.
Qed.

Lemma Configure_diagnostics_added w req :
  exists added,
    Diagnostics (resp (Configure w req)) = decode req ++ added
    /\ diag.errors added = added
    /\ length added <= 4.
Proof.
  unfold Configure.
  destruct (validate_added (environ w) req) as (added & Hf & He & Hl & Hn).
  destruct (validate (environ w) req) as [ds [r|]] eqn:Hv; simpl in Hf, Hn.
  - rewrite (Hn ltac:(eauto)), app_nil_r in Hf. subst ds.
    apply validate_Some in Hv as (_ & Hds & _).
    unfold connect.
    destruct (SystemVersion w _) as [versionStr|err].
    + destruct (NewVersion w _) as [version|err].
      * destruct (aggregate_tags _) as [tags taglog]. simpl.
        exists []. rewrite app_nil_r.
        split; [reflexivity|]. split; [reflexivity|simpl; lia].
      * simpl. rewrite (AddError_fresh _ _ _ Hds). eexists.
        split; [reflexivity|]. split; [reflexivity|simpl; lia].
    + simpl. rewrite (AddError_fresh _ _ _ Hds). eexists.
      split; [reflexivity|]. split; [reflexivity|simpl; lia].
  - subst ds. simpl. by exists added.
Qed.

(** X5. [Configure] keeps the diagnostics of the decoding, in order and
    in front, and adds only errors after them, never a warning and never
    more than four; when the decoding reported no error, it adds none
    exactly when it assigns a session. *)
Theorem Configure_adds_errors_only w req :
  exists added,
    Diagnostics (resp (Configure w req)) = decode req ++ added
    /\ (forall d, d ∈ Get_diags req ->
                  d ∈ Diagnostics (resp (Configure w req)))
    /\ diag.errors added = added
    /\ length added <= 4
    /\ (diag.HasError (Get_diags req) = false ->
        (added = [] <-> is_Some (DataSourceData (resp (Configure w req))))).
Proof.
  destruct (Configure_diagnostics_added w req) as (added & Hd & He & Hl).
  exists added. split; [assumption|]. split; [|split; [assumption|split]].
  - intros d Hin. rewrite Hd. apply elem_of_app. left.
    apply elem_of_Append. by right.
  - assumption.
  - intros H0. destruct (Configure_session_iff w req) as [<- _].
    rewrite Hd, HasError_app, HasError_decode, H0. simpl.
    rewrite (errors_all_HasError _ He), negb_false_iff.
    split; [apply bool_decide_eq_true_2 | apply bool_decide_eq_true_1].
Qed.

Lemma Configure_adds_errors_only_witness :
  let w := mkWorld {[ "OPENNEBULA_INSECURE" := "on" ]}
             remote_ok parse_version in
  let warning := diag.mkDiagnostic diag.SeverityWarning None
                   "Deprecated" "An attribute is deprecated" in
  let req := mkRequest [warning]
               (mkModel types.StringNull types.StringNull types.StringNull
                  types.StringNull types.BoolNull types.SetNull) in
  exists added,
    Diagnostics (resp (Configure w req)) = [warning] ++ added
    /\ length added = 4
    /\ ~ is_Some (DataSourceData (resp (Configure w req))).
Proof.
  intros w warning req.
  destruct (Configure_adds_errors_only w req)
    as (added & Hd & _ & _ & _ & Hs).
  exists added. split; [exact Hd|].
  assert (length (Diagnostics (resp (Configure w req))) = 5) as Hlen
    by (vm_compute; reflexivity).
  rewrite Hd, length_app in Hlen. simpl in Hlen.
  split; [lia|]. intros Hsome. apply (Hs eq_refl) in Hsome.
  subst added. simpl in Hlen. lia.
Defined.

(** X6. When one of the checks before the version query fails, nothing is
    asked of the remote system: the outcome is the same whatever the
    version query and the version parser would answer, and no session is
    assigned. *)
Theorem invalid_configuration_makes_no_query w req :
  ~ checks_pass (environ w) req ->
  DataSourceData (resp (Configure w req)) = None
  /\ forall w', environ w' = environ w -> Configure w' req = Configure w req.
Proof.
  intros Hnp. unfold Configure.
  destruct (validate (environ w) req) as [ds [r|]] eqn:Hv.
  - apply validate_Some_checks in Hv as [Hp _]. contradiction.
  - split; [reflexivity|]. intros w' ->. by rewrite Hv.
Qed.

Lemma invalid_configuration_makes_no_query_witness :
  let req := declared_config types.StringNull types.StringNull
               (types.StringValue "u") (types.StringValue "p")
               types.BoolNull [] in
  Configure (mkWorld ∅ remote_down parse_version) req
  = Configure (mkWorld ∅ remote_ok parse_version) req.
Proof.
  intros req.
  apply (invalid_configuration_makes_no_query
           (mkWorld ∅ remote_ok parse_version) req); [|reflexivity].
  intros (_ & _ & _ & Hm). vm_compute in Hm. discriminate.
Defined.

(** The settings and the parse error depend on the environment through
    the five variables only. *)
Lemma resolved_variables env env' config :
  (forall k, k ∈ variables -> os.Getenv env' k = os.Getenv env k) ->
  resolved env' config = resolved env config
  /\ insecure_diags env' = insecure_diags env.
Proof.
  intros Hk. rewrite !resolved_eq.
  unfold env_insecure, insecure_diags. cbv zeta.
  rewrite !Hk; [done|..]; apply (bool_decide_unpack _); vm_compute; exact I.
Qed.

(** X7. [Configure] looks at the world through five environment variables,
    one version query, made through the client of the resolved settings,
    and the parsing of the answer to that query: two worlds that agree on
    these give the same outcome. *)
Theorem Configure_reads_variables_and_one_query w w' req :
  let c := new_client (resolved (environ w) (Get_config req)) in
  (forall k, k ∈ variables ->
             os.Getenv (environ w') k = os.Getenv (environ w) k) ->
  SystemVersion w' c = SystemVersion w c ->
  (forall versionStr,
      SystemVersion w c = Ok versionStr ->
      NewVersion w' versionStr = NewVersion w versionStr) ->
  Configure w' req = Configure w req.
Proof.
  intros c Hk Hs Hn.
  destruct (resolved_variables _ _ (Get_config req) Hk) as [Hr Hi].
  unfold Configure.
  assert (validate (environ w') req = validate (environ w) req) as ->
    by (rewrite !validate_eq; cbv zeta; by rewrite Hr, Hi).
  destruct (validate (environ w) req) as [ds [r|]] eqn:Hv; [|reflexivity].
  apply validate_Some in Hv as (_ & _ & -> & _).
  unfold connect. fold c. rewrite Hs.
  destruct (SystemVersion w c) as [versionStr|err] eqn:Hq; [|reflexivity].
  by rewrite (Hn versionStr eq_refl).
Qed.

Lemma Configure_reads_variables_and_one_query_witness :
  let req := declared_config types.StringNull types.StringNull
               (types.StringValue "u") (types.StringValue "p")
               types.BoolNull [] in
  Configure (mkWorld {[ "OPENNEBULA_ENDPOINT" := "https://a";
                        "HOME" := "/root" ]}
               (fun c => if bool_decide (goca.client_user c = "u")
                         then Ok "6.8.0" else Err "unauthorized")
               parse_version) req
  = Configure (mkWorld {[ "OPENNEBULA_ENDPOINT" := "https://a" ]}
                 remote_ok parse_version) req.
Proof.
  intros req.
  apply (Configure_reads_variables_and_one_query
           (mkWorld {[ "OPENNEBULA_ENDPOINT" := "https://a" ]}
              remote_ok parse_version)).
  - intros k Hk.
    repeat (apply elem_of_cons in Hk as [->|Hk]; [vm_compute; reflexivity|]).
    by apply elem_of_nil in Hk.
  - vm_compute. reflexivity.
  - reflexivity.
Defined.

(** X8. A required setting declared as the empty string is not filled
    from the environment: whatever the environment holds, the setting
    resolves to the empty string, the error for the missing setting is
    reported and no session is assigned. *)
Theorem declared_empty_string_is_missing w req f :
  diag.HasError (Get_diags req) = false ->
  unknown_required (Get_config req) = [] ->
  declared (Get_config req) f = types.StringValue EmptyString ->
  setting (resolved (environ w) (Get_config req)) f = EmptyString
  /\ missing_summary f
     ∈ map diag.Summary (diag.errors (Diagnostics (resp (Configure w req))))
  /\ DataSourceData (resp (Configure w req)) = None.
Proof.
  intros H0 Hu Hd.
  assert (setting (resolved (environ w) (Get_config req)) f = EmptyString)
    as He.
  { rewrite resolved_required_precedence, Hd; [done|]. by rewrite Hd. }
  split; [exact He|].
  assert (f ∈ empty_required (resolved (environ w) (Get_config req)))
    as Hin.
  { unfold empty_required. apply list_elem_of_In, List.filter_In.
    split; [|by apply bool_decide_eq_true_2].
    apply list_elem_of_In. destruct f; set_unfold; tauto. }
  assert (empty_required (resolved (environ w) (Get_config req)) <> [])
    as Hne by (intros Hnil; rewrite Hnil in Hin; by apply elem_of_nil in Hin).
  unfold Configure. rewrite validate_eq. cbv zeta.
  rewrite HasError_unknown_checks, HasError_decode, H0, Hu. simpl.
  rewrite HasError_app, HasError_missing_checks.
  rewrite (bool_decide_eq_false_2 _ Hne), orb_true_r. simpl.
  split; [|reflexivity].
  rewrite !errors_app, !map_app. apply elem_of_app. right.
  apply elem_of_app. right.
  destruct (missing_checks_nil (resolved (environ w) (Get_config req)))
    as (Hs & _ & ->).
  rewrite Hs. apply list_elem_of_fmap. eauto.
Qed.

Lemma declared_empty_string_is_missing_witness :
  let w := mkWorld {[ "OPENNEBULA_USERNAME" := "oneadmin" ]}
             remote_ok parse_version in
  let req := declared_config (types.StringValue "https://a")
               types.StringNull (types.StringValue EmptyString)
               (types.StringValue "p") types.BoolNull [] in
  os.Getenv (environ w) (variable FUsername) = "oneadmin"
  /\ username (resolved (environ w) (Get_config req)) = EmptyString
  /\ DataSourceData (resp (Configure w req)) = None.
Proof.
  intros w req. split; [vm_compute; reflexivity|].
  destruct (declared_empty_string_is_missing w req FUsername
              eq_refl eq_refl eq_refl) as (He & _ & Hd).
  split; [exact He | exact Hd].
Defined.

(** X9. Every diagnostic that [Configure] itself adds for an attribute is
    scoped to an attribute at the root of the schema that [Schema]
    declares, and that attribute is optional. *)
Theorem diagnostic_paths_are_schema_attributes w req d p :
  d ∈ Diagnostics (resp (Configure w req)) ->
  d ∉ Get_diags req ->
  diag.Path_of d = Some p ->
  exists name attr,
    p = path.Root name
    /\ schema.Attributes Schema !! name = Some attr
    /\ schema.Optional attr = true.
Proof.
  intros Hin Hnew Hp.
  assert (forall name,
             name ∈ ["endpoint"; "username"; "password"; "insecure"] ->
             diag.Path_of d = Some (path.Root name) ->
             exists name attr,
               p = path.Root name
               /\ schema.Attributes Schema !! name = Some attr
               /\ schema.Optional attr = true) as Hroot.
  { intros name Hname Hd. rewrite Hd in Hp. injection Hp as <-.
    exists name.
    repeat (apply elem_of_cons in Hname as [->|Hname];
            [eexists; split; [reflexivity|];
             split; vm_compute; reflexivity|]).
    by apply elem_of_nil in Hname. }
  apply Configure_diagnostics_origin in Hin as [Hin|[Hin|[Hin|[Hin|Hin]]]].
  - contradiction.
  - apply unknown_checks_paths in Hin as [f Hf].
    apply (Hroot (attribute f)); [|assumption].
    destruct f; apply (bool_decide_unpack _); vm_compute; exact I.
  - destruct (insecure_diags_cases (environ w)) as [Hi|Hi];
      rewrite Hi in Hin; [by apply elem_of_nil in Hin|].
    apply list_elem_of_singleton in Hin as ->.
    apply (Hroot "insecure"); [|reflexivity].
    apply (bool_decide_unpack _). vm_compute. exact I.
  - apply missing_checks_paths in Hin as [Hf|Hf].
    + apply (Hroot "endpoint"); [|assumption].
      apply (bool_decide_unpack _). vm_compute. exact I.
    + apply (Hroot "username"); [|assumption].
      apply (bool_decide_unpack _). vm_compute. exact I.
  - rewrite Hin in Hp. discriminate.
Qed.

Lemma diagnostic_paths_are_schema_attributes_witness :
  let w := mkWorld {[ "OPENNEBULA_INSECURE" := "maybe" ]}
             remote_ok parse_version in
  let req := declared_config (types.StringValue "https://a")
               types.StringNull (types.StringValue "u")
               (types.StringValue "p") types.BoolNull [] in
  exists name attr,
    [path.PathStepAttributeName "insecure"] = path.Root name
    /\ schema.Attributes Schema !! name = Some attr
    /\ schema.Optional attr = true.
Proof.
  intros w req.
  apply (diagnostic_paths_are_schema_attributes w req insecure_parse_error).
  - apply (bool_decide_unpack _). vm_compute. exact I.
  - apply not_elem_of_nil.
  - reflexivity.
Defined.

End Session.
